(** * just_setup_git: the setup wizard of [main.go], embedded and verified

    [main.go] is a sequential wizard: it asks six questions in a terminal
    form, then runs [git config], [ssh-keygen] and [ssh-add] and prints
    status lines.  Everything it does is an effect, so the embedding is a
    small monad over

    - the six package-level variables ([Globals]),
    - the history of observable events ([Event]),
    - the outside world ([World]): the user at the keyboard, the answer of
      every child process and of the file system.

    A process ends by returning from [main] (status 0), through [log.Fatal]
    (status 1) or through a Go run-time panic (status 2). *)

From Stdlib Require Import String Ascii List Bool Arith ZArith Lia.
Import ListNotations.
Local Open Scope list_scope.
Local Open Scope string_scope.

(** ** Strings *)

Module Strings.

(** Line feed and double quote, the two escapes of the Go literals. *)
Definition LF : string := String (ascii_of_nat 10) EmptyString.
Definition DQ : string := String (ascii_of_nat 34) EmptyString.

(** [strings.HasPrefix]. *)
Fixpoint HasPrefix (s prefix : string) {struct prefix} : bool :=
  match prefix, s with
  | EmptyString, _ => true
  | String _ _, EmptyString => false
  | String p prefix', String c s' => Ascii.eqb p c && HasPrefix s' prefix'
  end.

(** [strings.Contains]: [substr] occurs somewhere within [s]. *)
Fixpoint Contains (s substr : string) : bool :=
  HasPrefix s substr ||
  match s with
  | EmptyString => false
  | String _ s' => Contains s' substr
  end.

(** [strings.Join]. *)
Fixpoint Join (elems : list string) (sep : string) : string :=
  match elems with
  | [] => ""
  | [s] => s
  | s :: rest => s ++ sep ++ Join rest sep
  end.

(** The bytes of a string. *)
Fixpoint bytes (s : string) : list ascii :=
  match s with
  | EmptyString => []
  | String c s' => c :: bytes s'
  end.

End Strings.

(** ** Data *)

(** Go's [error] values, as far as the program meets them. *)
Inductive error : Type :=
| errors_New (msg : string)            (* errors.New(msg) *)
| ErrUserAborted                       (* huh.ErrUserAborted *)
| UnknownUserError (msg : string)      (* from os/user *)
| ExitError (code : Z)                 (* a child exited with a non-zero code *)
| ExecError (name : string)            (* a child could not be started *)
| PathError (op path : string).        (* from os.ReadFile *)

(** [os/user.User]. *)
Record User : Type := {
  Uid : string;
  Gid : string;
  Username : string;
  Name : string;
  HomeDir : string
}.

(** The package-level variables of lines 16-23. *)
Record Globals : Type := {
  gitContext : string;
  username : string;
  email : string;
  ignoreSSH : bool;
  sshPath : string;
  signing : bool
}.

(** Go zero values. *)
Definition zero : Globals :=
  {| gitContext := ""; username := ""; email := "";
     ignoreSSH := false; sshPath := ""; signing := false |}.

Definition set_sshPath (p : string) (g : Globals) : Globals :=
  {| gitContext := gitContext g; username := username g; email := email g;
     ignoreSSH := ignoreSSH g; sshPath := p; signing := signing g |}.

(** The four lipgloss styles of lines 25-30.  A style only decorates; a
    rendered text is kept as the style and the text it was applied to. *)
Inductive Style : Type := successColor | warningColor | errorColor | infoColor.

Inductive Text : Type :=
| Plain (s : string)
| Rendered (st : Style) (s : string).

(** [Style.Render(strs...)] joins its arguments with one space. *)
Definition Render (st : Style) (strs : list string) : Text :=
  Rendered st (Strings.Join strs " ").

(** What the process does to the outside. *)
Inductive Event : Type :=
| Stdout (t : Text) (newline : bool)
    (* fmt.Print (newline = false) and fmt.Println (newline = true) *)
| LogFatal (e : error)
    (* the message log.Fatal writes before it exits *)
| Exec (argv : list string) (tty : bool) (res : option error)
    (* exec.Command(argv...).Run(); tty: the child got our stdin, stdout
       and stderr; res = None is Go's nil error *)
| ReadFile (path : string) (res : string + error).
    (* os.ReadFile(path) *)

(** The options of the first select of the form. *)
Inductive Scope : Type := Global | Local.

Definition scope_flag (s : Scope) : string :=
  match s with Global => "--global" | Local => "--local" end.

(** What the user does in the form.  The form may fail as a whole
    ([huh.ErrUserAborted] when the user cancels it).  An input with a
    validator is retried in place: the user submits texts one after the
    other until one is accepted, and gives up (aborts the form) when the
    list is exhausted.  The key-path input comes pre-filled; the user edits
    that text. *)
Record Keystrokes : Type := {
  k_error : option error;
  k_gitContext : Scope;
  k_username : list string;
  k_email : list string;
  k_ignoreSSH : bool;
  k_sshPath : string -> string;
  k_signing : bool
}.

(** The outside world.  The answer of a child process or of the file system
    may depend on everything that happened before (the key generator creates
    the files the summary reads), so both are functions of the history. *)
Record World : Type := {
  user_Current : User + error;
  keys : Keystrokes;
  command : list Event -> list string -> option error;
  file : list Event -> string -> string + error
}.

(** ** The monad *)

(** The two ways a Go process stops before [main] returns. *)
Inductive Halt : Type :=
| OsExit (code : Z)
| RuntimePanic (msg : string).

Inductive Res (A : Type) : Type :=
| Done (a : A)
| Stop (h : Halt).
Arguments Done {A} a.
Arguments Stop {A} h.

Definition State : Type := Globals * list Event.

Definition M (A : Type) : Type := World -> State -> Res A * State.

Definition ret {A} (a : A) : M A := fun _ s => (Done a, s).

Definition bind {A B} (m : M A) (k : A -> M B) : M B :=
  fun w s =>
    match m w s with
    | (Done a, s') => k a w s'
    | (Stop h, s') => (Stop h, s')
    end.

Declare Scope go_scope.
Delimit Scope go_scope with go.
Notation "x <- m ;; k" := (bind m (fun x => k))
  (at level 61, m at next level, right associativity) : go_scope.
Notation "m ;; k" := (bind m (fun _ => k))
  (at level 61, right associativity) : go_scope.
Local Open Scope go_scope.

Definition globals : M Globals := fun _ s => (Done (fst s), s).
Definition modify (f : Globals -> Globals) : M unit :=
  fun _ s => (Done tt, (f (fst s), snd s)).
Definition emit (e : Event) : M unit :=
  fun _ s => (Done tt, (fst s, (snd s ++ [e])%list)).
Definition halt {A} (h : Halt) : M A := fun _ s => (Stop h, s).

(** ** The primitives the program calls *)

Definition fmt_Print (t : Text) : M unit := emit (Stdout t false).
Definition fmt_Println (t : Text) : M unit := emit (Stdout t true).

(** [log.Fatal(err)]: print, then [os.Exit(1)]. *)
Definition log_Fatal {A} (err : error) : M A :=
  emit (LogFatal err) ;; halt (OsExit 1).

(** [exec.Command(argv...).Run()]. *)
Definition exec_Run (argv : list string) (tty : bool) : M (option error) :=
  fun w s =>
    let r := command w (snd s) argv in
    (Done r, (fst s, (snd s ++ [Exec argv tty r])%list)).

(** [os.ReadFile(path)]. *)
Definition os_ReadFile (path : string) : M (string + error) :=
  fun w s =>
    let r := file w (snd s) path in
    (Done r, (fst s, (snd s ++ [ReadFile path r])%list)).

(** A huh input with a validator: the first accepted text, if any. *)
Fixpoint huh_Input (validate : string -> option error) (typed : list string)
  : option string :=
  match typed with
  | [] => None
  | s :: rest =>
      match validate s with
      | None => Some s
      | Some _ => huh_Input validate rest
      end
  end.

(** ** The program *)

(** Lines 62-65. *)
Definition success (msg : list string) : M unit :=
  fmt_Print (Render successColor ["✓ "]) ;;
  fmt_Println (Render successColor msg).

(** Lines 68-70. *)
Definition warning (msg : list string) : M unit :=
  fmt_Println (Render warningColor msg).

(** Lines 73-76: the program's own [panic], which shadows the builtin. *)
Definition panic {A} (err : error) : M A :=
  fmt_Println (Render errorColor ["! Fatal Error !" ++ Strings.LF]) ;;
  log_Fatal err.

(** [if err != nil { panic(err) }]. *)
Definition check (err : option error) : M unit :=
  match err with
  | Some e => panic e
  | None => ret tt
  end.

(** The validator of the username input, lines 103-108. *)
Definition validateUsername (str : string) : option error :=
  if String.eqb str "" then Some (errors_New "Username Required") else None.

(** The validator of the email input, lines 116-121. *)
Definition validateEmail (str : string) : option error :=
  if negb (Strings.Contains str "@") || negb (Strings.Contains str ".")
  then Some (errors_New "Not valid email address")
  else None.

(** [form.Run()] on the form of lines 84-149: each field writes the variable
    it is bound to.  The form's own drawing is not recorded. *)
Definition form_Run : M (option error) :=
  fun w s =>
    let k := keys w in
    match k_error k with
    | Some err => (Done (Some err), s)
    | None =>
        match huh_Input validateUsername (k_username k),
              huh_Input validateEmail (k_email k) with
        | Some u, Some e =>
            (Done None,
             ({| gitContext := scope_flag (k_gitContext k);
                 username := u;
                 email := e;
                 ignoreSSH := k_ignoreSSH k;
                 sshPath := k_sshPath k (sshPath (fst s));
                 signing := k_signing k |}, snd s))
        | _, _ => (Done (Some ErrUserAborted), s)
        end
    end.

(** Lines 79-152.  [user.Current()] returns a nil [*User] together with its
    error; line 82 reads [currentUser.HomeDir] without looking at the
    error, which for a nil pointer is a run-time panic. *)
Definition promptForm : M (option error) :=
  fun w =>
    match user_Current w with
    | inl currentUser =>
        (modify (set_sshPath (HomeDir currentUser ++ "/.ssh/id_ed25519")) ;;
         form_Run) w
    | inr _ =>
        halt (RuntimePanic
                "invalid memory address or nil pointer dereference") w
    end.

(** Lines 155-169. *)
Definition setupGit : M (option error) :=
  g <- globals ;;
  err <- exec_Run ["git"; "config"; gitContext g; "user.name"; username g]
                  false ;;
  match err with
  | Some e => ret (Some e)
  | None =>
      success ["Successfully set git username"] ;;
      err <- exec_Run ["git"; "config"; gitContext g; "user.email"; username g]
                      false ;;
      match err with
      | Some e => ret (Some e)
      | None =>
          success ["Successfully set git email"] ;;
          ret None
      end
  end.

(** Lines 171-185. *)
Definition generateSSH : M (option error) :=
  g <- globals ;;
  err <- exec_Run ["ssh-keygen"; "-t"; "ed25519"; "-f"; sshPath g;
                   "-C"; email g] true ;;
  match err with
  | Some _ => ret (Some (errors_New "Failed while generating SSH key"))
  | None =>
      success ["Successfully generated ssh key"] ;;
      ret None
  end.

(** Lines 188-200. *)
Definition setupSSH : M (option error) :=
  err <- generateSSH ;;
  match err with
  | Some e => ret (Some e)
  | None =>
      g <- globals ;;
      err <- exec_Run ["ssh-add"; sshPath g] false ;;
      match err with
      | Some _ =>
          warning ["Warning Failed to add SSH key using `ssh-add`"
                   ++ Strings.LF
                   ++ "This can happen if the key is already added. If it isn't, try running `ssh-add %s";
                   sshPath g]
      | None => ret tt
      end ;;
      ret None
  end.

(** Lines 203-230. *)
Definition setupSigning : M (option error) :=
  g <- globals ;;
  err <- (if ignoreSSH g then generateSSH else ret None) ;;
  match err with
  | Some e => ret (Some e)
  | None =>
      err <- exec_Run ["git"; "config"; gitContext g; "gpg.format"; "ssh"]
                      false ;;
      match err with
      | Some e => ret (Some e)
      | None =>
          success ["Successfully set git signing type"] ;;
          err <- exec_Run ["git"; "config"; gitContext g; "user.signingkey";
                           sshPath g] false ;;
          match err with
          | Some e => ret (Some e)
          | None =>
              success ["Successfully set git signing key"] ;;
              err <- exec_Run ["git"; "config"; gitContext g;
                               "commit.gpgsign"; "true"] false ;;
              match err with
              | Some e => ret (Some e)
              | None =>
                  success ["Successfully set git to sign commits by default"] ;;
                  ret None
              end
          end
      end
  end.

(** The lines printed by [almostDone], lines 239-249. *)
Definition summary_lines (pub : string) : list Text :=
  [ Render infoColor [Strings.LF ++ "Almost Done!"];
    Plain "If you're using github, navigate to `https://github.com/settings/keys` and press `New SSH key`";
    Plain "If you set up SSH, set `Key type` to `Authentication Key`";
    Plain "If you set up Signing, set `Key type` to `Signing Key`";
    Plain ("You have to create seperate keys on github, but can use the same key on your machine" ++ Strings.LF);
    Plain "Key:";
    Render infoColor [pub];
    Plain (Strings.LF ++ "If you setup SSH, to avoid re-typing ssh key to push, it is recommended to add `ssh-agent` to your command line settings");
    Render infoColor ["eval " ++ Strings.DQ ++ "$(ssh-agent -s)" ++ Strings.DQ] ].

(** [for _, line := range lines { fmt.Println(line) }]. *)
Fixpoint print_lines (lines : list Text) : M unit :=
  match lines with
  | [] => ret tt
  | line :: rest => fmt_Println line ;; print_lines rest
  end.

(** Lines 233-255. *)
Definition almostDone : M (option error) :=
  g <- globals ;;
  r <- os_ReadFile (sshPath g ++ ".pub") ;;
  match r with
  | inr err => ret (Some err)
  | inl pub =>
      print_lines (summary_lines pub) ;;
      ret None
  end.

(** The steps of [main], lines 33-58, one definition per statement. *)
Definition promptStep : M unit := err <- promptForm ;; check err.

Definition gitStep : M unit := err <- setupGit ;; check err.

Definition sshStep : M unit :=
  g <- globals ;;
  if negb (ignoreSSH g) then err <- setupSSH ;; check err else ret tt.

Definition signingStep : M unit :=
  g <- globals ;;
  if signing g then err <- setupSigning ;; check err else ret tt.

(** Line 52. *)
Definition resetStep : M unit :=
  modify (set_sshPath "/home/mason/.ssh/id_ed25519").

(** Lines 54-58: the value [almostDone] returns is dropped. *)
Definition finalStep : M unit :=
  g <- globals ;;
  if negb (ignoreSSH g) || signing g
  then _ <- almostDone ;; ret tt
  else success ["Finished!"].

(** What [main] does once the form has been answered. *)
Definition pipeline : M unit :=
  gitStep ;; sshStep ;; signingStep ;; resetStep ;; finalStep.

(** Lines 32-59. *)
Definition main : M unit := promptStep ;; pipeline.

(** ** Running the process *)

Definition start : State := (zero, []).

Definition run (w : World) : Res unit * State := main w start.

(** The events of a run, oldest first. *)
Definition trace (w : World) : list Event := snd (snd (run w)).

(** The exit status the parent process sees: 0 when [main] returns, the
    argument of [os.Exit], and 2 after a run-time panic. *)
Definition status_of (r : Res unit) : Z :=
  match r with
  | Done _ => 0
  | Stop (OsExit code) => code
  | Stop (RuntimePanic _) => 2
  end.

Definition exit_status (w : World) : Z := status_of (fst (run w)).

(** The variables as [promptForm] leaves them when it returns nil. *)
Definition prompted (w : World) : option Globals :=
  match promptForm w start with
  | (Done None, (g, _)) => Some g
  | _ => None
  end.

(** ** Reading a trace *)

(** The name of the program an event started. *)
Definition started (name : string) (e : Event) : bool :=
  match e with
  | Exec (p :: _) _ _ => String.eqb p name
  | _ => false
  end.

(** A call of the key generator. *)
Definition is_keygen (e : Event) : bool := started "ssh-keygen" e.

(** A registration with the agent. *)
Definition is_ssh_add (e : Event) : bool := started "ssh-add" e.

(** The key and the value of a [git config <scope> <key> <value>] command. *)
Definition git_write (e : Event) : option (string * string) :=
  match e with
  | Exec [p; c; _; key; value] _ _ =>
      if String.eqb p "git" && String.eqb c "config"
      then Some (key, value) else None
  | _ => None
  end.

Definition is_git_config (e : Event) : bool :=
  match git_write e with Some _ => true | None => false end.

Definition writes_key (key : string) (e : Event) : bool :=
  match git_write e with
  | Some (k, _) => String.eqb k key
  | None => false
  end.

(** One of the three writes of [setupSigning]. *)
Definition is_signing_write (e : Event) : bool :=
  writes_key "gpg.format" e || writes_key "user.signingkey" e
  || writes_key "commit.gpgsign" e.

(** The command came back with an error. *)
Definition failed (e : Event) : bool :=
  match e with
  | Exec _ _ (Some _) => true
  | _ => false
  end.

Definition is_read (e : Event) : bool :=
  match e with
  | ReadFile _ _ => true
  | _ => false
  end.

(** Neither a command nor a file access. *)
Definition is_output (e : Event) : bool :=
  match e with
  | Stdout _ _ | LogFatal _ => true
  | _ => false
  end.

(** The git configuration writes of a trace, in order. *)
Definition git_writes (tr : list Event) : list (string * string) :=
  flat_map (fun e => match git_write e with Some kv => [kv] | None => [] end)
           tr.

(** How often a kind of event occurs. *)
Definition count (p : Event -> bool) (tr : list Event) : nat :=
  length (filter p tr).

(** [setupGit] got to its end: the [user.email] write came back with nil. *)
Definition identity_configured (tr : list Event) : bool :=
  existsb (fun e => writes_key "user.email" e && negb (failed e)) tr.

(** The events [success(msg)] leaves. *)
Definition success_events (msg : string) : list Event :=
  [Stdout (Rendered successColor "✓ ") false;
   Stdout (Rendered successColor msg) true].

(** The events a readable key file is followed by. *)
Definition summary_events (pub : string) : list Event :=
  map (fun line => Stdout line true) (summary_lines pub).

(** A test on every event of a trace together with what came before and
    after it. *)
Fixpoint all_splits (p : list Event -> Event -> list Event -> bool)
         (before tr : list Event) : bool :=
  match tr with
  | [] => true
  | e :: rest => p before e rest && all_splits p (before ++ [e])%list rest
  end.

(** The events before the first one that passes [p]. *)
Fixpoint until (p : Event -> bool) (tr : list Event) : list Event :=
  match tr with
  | [] => []
  | e :: rest => if p e then [] else e :: until p rest
  end.

(** The event prints [msg], in whatever style. *)
Definition says (msg : string) (e : Event) : bool :=
  match e with
  | Stdout (Plain s) _ | Stdout (Rendered _ s) _ => String.eqb s msg
  | _ => false
  end.

(** The texts printed in the informational style, in order. *)
Definition info_lines (tr : list Event) : list string :=
  flat_map (fun e => match e with
                     | Stdout (Rendered infoColor s) _ => [s]
                     | _ => []
                     end) tr.

(** The errors handed to [log.Fatal]. *)
Definition logged (tr : list Event) : list error :=
  flat_map (fun e => match e with LogFatal err => [err] | _ => [] end) tr.

(** The key path a command is given: the [-f] argument of the generator and
    the value written to [user.signingkey]. *)
Definition key_path (e : Event) : option string :=
  match e with
  | Exec argv _ _ =>
      if is_keygen e then Some (nth 4 argv "")
      else if writes_key "user.signingkey" e
           then option_map snd (git_write e)
           else None
  | _ => None
  end.

(** The path [main] leaves in [sshPath] on line 52. *)
Definition masons_key : string := "/home/mason/.ssh/id_ed25519".

(** The arguments [generateSSH] passes. *)
Definition keygen_argv (g : Globals) : list string :=
  ["ssh-keygen"; "-t"; "ed25519"; "-f"; sshPath g; "-C"; email g].

(** What a trace tells about the one file access of a run: which file, with
    which answer, and what was printed after it. *)
Definition read_report (w : World) (r : Res unit) (tr : list Event) : Prop :=
  match find is_read tr with
  | Some (ReadFile path res) =>
      path = masons_key ++ ".pub"
      /\ res = file w (until is_read tr) path
      /\ tr = (until is_read tr
               ++ ReadFile path res
               :: match res with
                  | inl pub => summary_events pub
                  | inr _ => []
                  end)%list
      /\ r = Done tt
  | _ => existsb is_read tr = false
  end.

(** The line [setupSSH] prints when the agent refuses the key, line 196. *)
Definition agent_warning (path : string) : Event :=
  Stdout (Render warningColor
            ["Warning Failed to add SSH key using `ssh-add`" ++ Strings.LF
             ++ "This can happen if the key is already added. If it isn't, try running `ssh-add %s";
             path]) true.

(** The event prints in the warning style. *)
Definition is_warning (e : Event) : bool :=
  match e with
  | Stdout (Rendered warningColor _) _ => true
  | _ => false
  end.

(** The text the form pre-fills the key-path field with, line 82. *)
Definition default_key_path (currentUser : User) : string :=
  HomeDir currentUser ++ "/.ssh/id_ed25519".

(** A computation only ever appends to the trace. *)
Definition grows {A} (m : M A) : Prop :=
  forall w s, exists more, snd (snd (m w s)) = (snd s ++ more)%list.

(** ** Reading a whole run *)

(** The event starts a child process. *)
Definition is_exec (e : Event) : bool :=
  match e with
  | Exec _ _ _ => true
  | _ => false
  end.

(** The command lines of a trace, in order. *)
Definition commands (tr : list Event) : list (list string) :=
  flat_map (fun e => match e with Exec argv _ _ => [argv] | _ => [] end) tr.

(** The command line of a git configuration write, lines 156-223. *)
Definition git_argv (g : Globals) (key value : string) : list string :=
  ["git"; "config"; gitContext g; key; value].

(** The command lines [main] goes through when nothing stops it: the two
    identity writes of [setupGit], the generator and the agent of [setupSSH]
    unless [ignoreSSH], and for [signing] the generator if it has not run
    yet and the three writes of [setupSigning]. *)
Definition plan (g : Globals) : list (list string) :=
  ([git_argv g "user.name" (username g);
    git_argv g "user.email" (username g)]
   ++ (if ignoreSSH g then [] else [keygen_argv g; ["ssh-add"; sshPath g]])
   ++ (if signing g
       then (if ignoreSSH g then [keygen_argv g] else [])
            ++ [git_argv g "gpg.format" "ssh";
                git_argv g "user.signingkey" (sshPath g);
                git_argv g "commit.gpgsign" "true"]
       else []))%list.

(** The two events [panic(err)] leaves, lines 73-76. *)
Definition fatal_events (err : error) : list Event :=
  [Stdout (Render errorColor ["! Fatal Error !" ++ Strings.LF]) true;
   LogFatal err].

(** The event prints in the error style, as the banner of [panic] does. *)
Definition is_banner (e : Event) : bool :=
  match e with
  | Stdout (Rendered errorColor _) _ => true
  | _ => false
  end.

(** The completion message of line 57. *)
Definition is_completion (e : Event) : bool :=
  match e with
  | Stdout (Rendered successColor s) true => String.eqb s "Finished!"
  | _ => false
  end.

(** The error [generateSSH] returns in place of the generator's own. *)
Definition keygen_error : error :=
  errors_New "Failed while generating SSH key".

(** A property of every event of a trace together with what came before
    and after it. *)
Fixpoint every_split (P : list Event -> Event -> list Event -> Prop)
         (before tr : list Event) : Prop :=
  match tr with
  | [] => True
  | e :: rest => P before e rest /\ every_split P (before ++ [e])%list rest
  end.

(** The last command started in a trace. *)
Definition last_command (tr : list Event) : option Event :=
  find is_exec (rev tr).

(** ** Sample worlds *)

Module Sample.

Definition alice : User :=
  {| Uid := "1000"; Gid := "1000"; Username := "alice";
     Name := "Alice"; HomeDir := "/home/alice" |}.

(** Alice mistypes her name and her address once, then answers. *)
Definition typing (scope : Scope) (skip sign : bool)
           (edit : string -> string) : Keystrokes :=
  {| k_error := None;
     k_gitContext := scope;
     k_username := [""; "alice"];
     k_email := ["alice"; "alice@example.com"];
     k_ignoreSSH := skip;
     k_sshPath := edit;
     k_signing := sign |}.

(** She leaves the pre-filled key path as it is. *)
Definition keep (prefilled : string) : string := prefilled.

(** She empties the key-path field. *)
Definition clear (prefilled : string) : string := "".

Definition alice_pub : string :=
  "ssh-ed25519 AAAAC3NzaC1lZDI1NTE5AAAAIalice alice@example.com" ++ Strings.LF.

Definition mason_pub : string :=
  "ssh-ed25519 AAAAC3NzaC1lZDI1NTE5AAAAImason mason@laptop" ++ Strings.LF.

(** Alice's own machine: once the generator has succeeded her public key is
    on disk; there is no [/home/mason]. *)
Definition disk (history : list Event) (path : string) : string + error :=
  if existsb (fun e => is_keygen e && negb (failed e)) history
     && String.eqb path "/home/alice/.ssh/id_ed25519.pub"
  then inl alice_pub
  else inr (PathError "open" path).

(** A machine Alice shares with Mason, whose key file she can read. *)
Definition shared_disk (history : list Event) (path : string)
  : string + error :=
  if String.eqb path "/home/mason/.ssh/id_ed25519.pub"
  then inl mason_pub
  else disk history path.

(** The commands named [name] fail. *)
Definition without (name : string) (argv : list string) : option error :=
  if String.eqb (hd "" argv) name then Some (ExitError 1) else None.

(** The git commands that write [key] fail. *)
Definition refusing (key : string) (argv : list string) : option error :=
  if String.eqb (nth 3 argv "") key then Some (ExitError 128) else None.

(** No agent is running and git refuses to write [gpg.format]. *)
Definition without_agent_refusing_format (argv : list string)
  : option error :=
  match without "ssh-add" argv with
  | Some e => Some e
  | None => refusing "gpg.format" argv
  end.

Definition machine (k : Keystrokes) (cmd : list string -> option error)
           (fs : list Event -> string -> string + error) : World :=
  {| user_Current := inl alice;
     keys := k;
     command := fun _ argv => cmd argv;
     file := fs |}.

(** The variables once Alice has answered and kept the pre-filled path. *)
Definition chosen (scope : Scope) (skip sign : bool) : Globals :=
  {| gitContext := scope_flag scope;
     username := "alice";
     email := "alice@example.com";
     ignoreSSH := skip;
     sshPath := "/home/alice/.ssh/id_ed25519";
     signing := sign |}.

(** Every command succeeds. *)
Definition calm (skip sign : bool) : World :=
  machine (typing Global skip sign keep) (fun _ => None) disk.

(** The same on the machine shared with Mason. *)
Definition shared (skip sign : bool) : World :=
  machine (typing Global skip sign keep) (fun _ => None) shared_disk.

(** Alice asks for [--local] outside of a repository: git fails. *)
Definition no_repository (skip sign : bool) : World :=
  machine (typing Local skip sign keep) (without "git") disk.

(** No agent is running: [ssh-add] fails. *)
Definition no_agent (skip sign : bool) : World :=
  machine (typing Global skip sign keep) (without "ssh-add") disk.

(** No agent, and the first signing write fails. *)
Definition no_agent_no_format : World :=
  machine (typing Global false true keep) without_agent_refusing_format disk.

(** Alice empties the key-path field. *)
Definition cleared (skip sign : bool) : World :=
  machine (typing Global skip sign clear) (fun _ => None) disk.

(** The current user cannot be looked up. *)
Definition nobody : World :=
  {| user_Current :=
       inr (UnknownUserError
              "user: Current requires cgo or $USER set in environment");
     keys := typing Global false false keep;
     command := fun _ _ => None;
     file := disk |}.

(** The key generator fails. *)
Definition no_keygen (skip sign : bool) : World :=
  machine (typing Global skip sign keep) (without "ssh-keygen") disk.

(** Git refuses the write of [key]. *)
Definition read_only (key : string) (skip sign : bool) : World :=
  machine (typing Global skip sign keep) (refusing key) disk.

(** The user cancels the form. *)
Definition cancelled : World :=
  {| user_Current := inl alice;
     keys := {| k_error := Some ErrUserAborted;
                k_gitContext := Global;
                k_username := [];
                k_email := [];
                k_ignoreSSH := false;
                k_sshPath := keep;
                k_signing := false |};
     command := fun _ _ => None;
     file := disk |}.

(** Mason himself, on his own machine. *)
Definition mason : User :=
  {| Uid := "1001"; Gid := "1001"; Username := "mason";
     Name := "Mason"; HomeDir := "/home/mason" |}.

Definition masons_own_pub : string :=
  "ssh-ed25519 AAAAC3NzaC1lZDI1NTE5AAAAIown mason@laptop.example"
  ++ Strings.LF.

(** Once the generator has succeeded his public key is on disk. *)
Definition masons_disk (history : list Event) (path : string)
  : string + error :=
  if existsb (fun e => is_keygen e && negb (failed e)) history
     && String.eqb path "/home/mason/.ssh/id_ed25519.pub"
  then inl masons_own_pub
  else inr (PathError "open" path).

(** Mason asks for a key, keeps the pre-filled path and declines signing;
    no agent is running, so [ssh-add] fails. *)
Definition mason_without_agent : World :=
  {| user_Current := inl mason;
     keys := {| k_error := None;
                k_gitContext := Global;
                k_username := ["mason"];
                k_email := ["mason@laptop.example"];
                k_ignoreSSH := false;
                k_sshPath := keep;
                k_signing := false |};
     command := fun _ argv => without "ssh-add" argv;
     file := masons_disk |}.

End Sample.

(** * Proofs *)

(** ** Strings and validators *)

Section Validation.

Import Strings.

Lemma HasPrefix_byte (c : ascii) (s : string) :
  HasPrefix s (String c "") =
  match s with
  | EmptyString => false
  | String c' _ => Ascii.eqb c c'
  end.
Proof.
  destruct s as [|c' s']; simpl; [reflexivity|].
  apply andb_true_r.
Qed.

(** Looking for a one-byte string is looking for that byte. *)
Lemma Contains_byte (c : ascii) (s : string) :
  Contains s (String c "") = true <-> In c (bytes s).
Proof.
  induction s as [|c' s' IH].
  - simpl. split; [discriminate | contradiction].
  - change (Contains (String c' s') (String c ""))
      with (HasPrefix (String c' s') (String c "")
            || Contains s' (String c "")).
    rewrite HasPrefix_byte, orb_true_iff, IH, Ascii.eqb_eq. simpl.
    split; (intros [H|H]; [left; congruence | right; exact H]).
Qed.

Lemma validateUsername_nil (str : string) :
  validateUsername str = None <-> str <> "".
Proof.
  unfold validateUsername.
  destruct (String.eqb_spec str "") as [E|E]; split; intro H;
    try discriminate; try reflexivity; try assumption.
  contradiction.
Qed.

Lemma validateEmail_nil (str : string) :
  validateEmail str = None <->
  In "@"%char (bytes str) /\ In "."%char (bytes str).
Proof.
  unfold validateEmail.
  rewrite <- (Contains_byte "@"), <- (Contains_byte ".").
  change (String "@" "") with "@". change (String "." "") with ".".
  destruct (Contains str "@"), (Contains str "."); simpl;
    split; intro H; try discriminate; try reflexivity;
    try (split; reflexivity); destruct H; discriminate.
Qed.

(** What [huh_Input] returns was submitted and passed the validator. *)
Lemma huh_Input_accepted validate typed s :
  huh_Input validate typed = Some s -> In s typed /\ validate s = None.
Proof.
  induction typed as [|t rest IH]; simpl; [discriminate|].
  destruct (validate t) eqn:V.
  - intro H. destruct (IH H). auto.
  - intro H. injection H as <-. auto.
Qed.

(** The texts submitted before the accepted one were all refused. *)
Lemma huh_Input_first validate typed s :
  huh_Input validate typed = Some s ->
  exists refused later,
    typed = (refused ++ s :: later)%list
    /\ Forall (fun t => validate t <> None) refused.
Proof.
  induction typed as [|t rest IH]; simpl; [discriminate|].
  destruct (validate t) eqn:V.
  - intro H. destruct (IH H) as (refused & later & -> & F).
    exists (t :: refused), later. split; [reflexivity|].
    constructor; [congruence | exact F].
  - intro H. injection H as <-. exists [], rest. split; [reflexivity|].
    constructor.
Qed.

End Validation.

(** ** Every position of a trace *)

Section Splits.

Variable p : list Event -> Event -> list Event -> bool.

Lemma all_splits_from before tr :
  all_splits p before tr = true ->
  forall l1 e l2, tr = (l1 ++ e :: l2)%list ->
                  p (before ++ l1)%list e l2 = true.
Proof.
  revert before.
  induction tr as [|x rest IH]; intros before H l1 e l2 E.
  - destruct l1; discriminate.
  - simpl in H. apply andb_true_iff in H as [Hx Hrest].
    destruct l1 as [|y l1]; simpl in E; injection E as -> ->.
    + rewrite app_nil_r. exact Hx.
    + specialize (IH _ Hrest l1 e l2 eq_refl).
      rewrite <- app_assoc in IH. exact IH.
Qed.

Lemma all_splits_spec tr :
  all_splits p [] tr = true ->
  forall l1 e l2, tr = (l1 ++ e :: l2)%list -> p l1 e l2 = true.
Proof.
  intros H l1 e l2 E. exact (all_splits_from [] tr H l1 e l2 E).
Qed.

End Splits.

Lemma forallb_middle (q : Event -> bool) l1 e l2 :
  forallb q (l1 ++ e :: l2)%list = true -> q e = true.
Proof.
  rewrite forallb_app. simpl. intro H.
  apply andb_true_iff in H as [_ H]. apply andb_true_iff in H as [H _].
  exact H.
Qed.

Lemma existsb_middle (q : Event -> bool) l1 e l2 :
  q e = true -> existsb q (l1 ++ e :: l2)%list = true.
Proof.
  intro H. rewrite existsb_app. simpl. rewrite H.
  rewrite orb_true_r. reflexivity.
Qed.

Lemma count_app (q : Event -> bool) (a b : list Event) :
  count q (a ++ b)%list = count q a + count q b.
Proof. unfold count. rewrite filter_app, length_app. reflexivity. Qed.

Lemma count_none (q : Event -> bool) (a : list Event) :
  count q a = 0 -> forallb (fun e => negb (q e)) a = true.
Proof.
  unfold count. induction a as [|x a IH]; simpl; [reflexivity|].
  destruct (q x); simpl; [discriminate | exact IH].
Qed.

(** Where the first event that passes [q] is. *)
Lemma until_find (q : Event -> bool) (a b : list Event) (e : Event) :
  forallb (fun x => negb (q x)) a = true ->
  q e = true ->
  until q (a ++ e :: b)%list = a /\ find q (a ++ e :: b)%list = Some e.
Proof.
  intros N Q. induction a as [|x a IH]; simpl.
  - rewrite Q. split; reflexivity.
  - simpl in N. apply andb_true_iff in N as [Nx Na].
    destruct (q x); [discriminate|].
    destruct (IH Na) as [-> ->]. split; reflexivity.
Qed.

(** An event that occurs at most once has none of its kind before it. *)
Lemma alone_before (q : Event -> bool) (a b : list Event) (e : Event) :
  count q (a ++ e :: b)%list <= 1 -> q e = true ->
  forallb (fun x => negb (q x)) a = true
  /\ forallb (fun x => negb (q x)) b = true.
Proof.
  intros C Q. rewrite count_app in C.
  change (e :: b) with ([e] ++ b)%list in C. rewrite count_app in C.
  unfold count at 2 in C. simpl in C. rewrite Q in C. simpl in C.
  split; apply count_none; lia.
Qed.

(** ** The shape of a run *)

(** How [promptStep] can end: the variables are set and nothing was printed,
    or the process is already over. *)
Lemma promptStep_cases (w : World) :
  match prompted w with
  | Some g => promptStep w start = (Done tt, (g, []))
  | None =>
      (exists e g,
          user_Current w = inr e /\
          promptStep w start =
          (Stop (RuntimePanic
                   "invalid memory address or nil pointer dereference"),
           (g, [])))
      \/ (exists err g,
             promptStep w start =
             (Stop (OsExit 1),
              (g, [Stdout (Render errorColor ["! Fatal Error !" ++ Strings.LF])
                          true;
                   LogFatal err])))
  end.
Proof.
  unfold prompted, promptStep, promptForm, bind.
  destruct (user_Current w) as [u|e].
  - unfold form_Run, modify; simpl.
    destruct (k_error (keys w)).
    + right. do 2 eexists. reflexivity.
    + destruct (huh_Input validateUsername _);
        [destruct (huh_Input validateEmail _)|]; simpl;
        try reflexivity; right; do 2 eexists; reflexivity.
  - left. do 2 eexists. split; reflexivity.
Qed.

Lemma run_unfold (w : World) :
  run w = match promptStep w start with
          | (Done _, s) => pipeline w s
          | (Stop h, s) => (Stop h, s)
          end.
Proof. reflexivity. Qed.

Lemma run_prompted (w : World) (g : Globals) :
  prompted w = Some g -> run w = pipeline w (g, []).
Proof.
  intro H. pose proof (promptStep_cases w) as P. rewrite H in P.
  rewrite run_unfold, P. reflexivity.
Qed.

(** A run whose form was not answered starts no command and reads no file,
    and does not end with status 0. *)
Lemma run_not_prompted (w : World) :
  prompted w = None ->
  forallb is_output (trace w) = true /\ exit_status w <> 0%Z.
Proof.
  intro H. pose proof (promptStep_cases w) as P. rewrite H in P.
  unfold trace, exit_status. rewrite run_unfold.
  destruct P as [(msg & g & _ & E)|(err & g & E)]; rewrite E; simpl; split;
    try reflexivity; discriminate.
Qed.

(** What the form leaves in the variables. *)
Lemma prompted_inv (w : World) (g : Globals) :
  prompted w = Some g ->
  exists currentUser,
    user_Current w = inl currentUser
    /\ k_error (keys w) = None
    /\ gitContext g = scope_flag (k_gitContext (keys w))
    /\ huh_Input validateUsername (k_username (keys w)) = Some (username g)
    /\ huh_Input validateEmail (k_email (keys w)) = Some (email g)
    /\ ignoreSSH g = k_ignoreSSH (keys w)
    /\ sshPath g
       = k_sshPath (keys w) (HomeDir currentUser ++ "/.ssh/id_ed25519")
    /\ signing g = k_signing (keys w).
Proof.
  unfold prompted, promptForm, bind.
  destruct (user_Current w) as [u|e]; [|discriminate].
  unfold form_Run, modify; simpl.
  destruct (k_error (keys w)); [discriminate|].
  destruct (huh_Input validateUsername _) as [n|]; [|discriminate].
  destruct (huh_Input validateEmail _) as [m|]; [|discriminate].
  intro H. injection H as <-. exists u. simpl. repeat split; reflexivity.
Qed.

(** Unfolding the monad and splitting on every answer of the world. *)
Ltac unfold_go :=
  cbv [pipeline gitStep sshStep signingStep resetStep finalStep
       setupGit generateSSH setupSSH setupSigning almostDone
       check panic success warning log_Fatal fmt_Print fmt_Println
       exec_Run os_ReadFile print_lines summary_lines set_sshPath
       gitContext username email ignoreSSH sshPath signing
       bind ret globals modify emit halt fst snd app negb orb andb].

Ltac split_world :=
  repeat (unfold_go;
          match goal with
          | |- context [match command ?w ?h ?a with _ => _ end] =>
              let E := fresh "Cmd" in destruct (command w h a) eqn:E
          | |- context [match file ?w ?h ?a with _ => _ end] =>
              let E := fresh "File" in destruct (file w h a) eqn:E
          end);
  unfold_go.

(** Every branch of the pipeline, for the four choices of the two selects. *)
Ltac every_run g :=
  let ctx := fresh "ctx" in
  let u := fresh "u" in
  let em := fresh "em" in
  let path := fresh "path" in
  destruct g as [ctx u em [|] path [|]]; split_world.

(** ** The prompt *)

(** C8.  Prompt validation accepts every non-empty username and every email
    that contains both the byte [@] and the byte [.]; it rejects the empty
    username and every email in which [@] or [.] is missing. *)
Theorem prompt_validation (name mail : string) :
  (name <> "" -> validateUsername name = None)
  /\ validateUsername "" = Some (errors_New "Username Required")
  /\ (In "@"%char (Strings.bytes mail) -> In "."%char (Strings.bytes mail) ->
      validateEmail mail = None)
  /\ (~ In "@"%char (Strings.bytes mail) \/ ~ In "."%char (Strings.bytes mail) ->
      validateEmail mail = Some (errors_New "Not valid email address")).
Proof.
  repeat split.
  - apply validateUsername_nil.
  - intros A D. apply validateEmail_nil. split; assumption.
  - intro H. destruct (validateEmail mail) eqn:V.
    + unfold validateEmail in V.
      destruct (negb _ || negb _); [injection V as <-; reflexivity|].
      discriminate.
    + apply validateEmail_nil in V. tauto.
Qed.

Lemma prompt_validation_witness :
  ("alice" <> ""
   /\ In "@"%char (Strings.bytes "alice@example.com")
   /\ In "."%char (Strings.bytes "alice@example.com")
   /\ (~ In "@"%char (Strings.bytes "alice")
       \/ ~ In "."%char (Strings.bytes "alice")))
  /\ validateUsername "alice" = None
  /\ validateEmail "alice@example.com" = None
  /\ validateEmail "alice" = Some (errors_New "Not valid email address").
Proof.
  assert (N : "alice" <> "") by discriminate.
  assert (A : In "@"%char (Strings.bytes "alice@example.com"))
    by (simpl; tauto).
  assert (D : In "."%char (Strings.bytes "alice@example.com"))
    by (simpl; tauto).
  assert (X : ~ In "@"%char (Strings.bytes "alice")
              \/ ~ In "."%char (Strings.bytes "alice")).
  { left. simpl. intros [H|[H|[H|[H|[H|[]]]]]]; discriminate. }
  split; [tauto|].
  destruct (prompt_validation "alice" "alice@example.com") as (U & _ & E & _).
  destruct (prompt_validation "alice" "alice") as (_ & _ & _ & R).
  split; [exact (U N)|]. split; [exact (E A D) | exact (R X)].
Defined.

(** The form hands over only what its validators accepted. *)
Lemma prompted_valid (w : World) (g : Globals) :
  prompted w = Some g ->
  username g <> ""
  /\ In "@"%char (Strings.bytes (email g))
  /\ In "."%char (Strings.bytes (email g)).
Proof.
  intro P. destruct (prompted_inv w g P) as (_ & _ & _ & _ & U & E & _).
  apply huh_Input_accepted in U as [_ U].
  apply huh_Input_accepted in E as [_ E].
  split; [apply validateUsername_nil, U | apply validateEmail_nil, E].
Qed.

(** ** Failing git commands *)

(** In every branch of the pipeline a failed git configuration command is
    the last one, and the pipeline then ends through [log.Fatal]. *)
Lemma pipeline_git_failure (w : World) (g : Globals) :
  all_splits
    (fun _ e later =>
       negb (is_git_config e && failed e)
       || forallb (fun e' => negb (is_git_config e')) later)
    [] (snd (snd (pipeline w (g, [])))) = true
  /\ (existsb (fun e => is_git_config e && failed e)
              (snd (snd (pipeline w (g, [])))) = true ->
      fst (pipeline w (g, [])) = Stop (OsExit 1)).
Proof.
  every_run g; split; try reflexivity;
    try (intro H; vm_compute in H; discriminate H).
Qed.

(** C5.  In every run, when a git configuration command returns a failure,
    no git configuration command is issued after it and the process exits
    with a non-zero status. *)
Theorem git_failure_halts (w : World) (l1 l2 : list Event) (e : Event) :
  trace w = (l1 ++ e :: l2)%list ->
  is_git_config e = true ->
  failed e = true ->
  forallb (fun e' => negb (is_git_config e')) l2 = true
  /\ exit_status w <> 0%Z.
Proof.
  intros E G F. destruct (prompted w) as [g|] eqn:P.
  - destruct (pipeline_git_failure w g) as [A B].
    unfold trace, exit_status in *. rewrite (run_prompted w g P) in *.
    split.
    + pose proof (all_splits_spec _ _ A l1 e l2 E) as H.
      cbv beta in H. rewrite G, F in H. exact H.
    + rewrite B; [discriminate|]. rewrite E.
      apply existsb_middle. rewrite G, F. reflexivity.
  - destruct (run_not_prompted w P) as [N _]. rewrite E in N.
    apply forallb_middle in N. destruct e; simpl in *; discriminate.
Qed.

Lemma git_failure_halts_witness :
  trace (Sample.no_repository true false)
  = ([] ++ Exec ["git"; "config"; "--local"; "user.name"; "alice"] false
             (Some (ExitError 1))
        :: [Stdout (Rendered errorColor ("! Fatal Error !" ++ Strings.LF)) true;
            LogFatal (ExitError 1)])%list
  /\ forallb (fun e' => negb (is_git_config e'))
             [Stdout (Rendered errorColor ("! Fatal Error !" ++ Strings.LF))
                     true;
              LogFatal (ExitError 1)] = true
  /\ exit_status (Sample.no_repository true false) <> 0%Z.
Proof.
  assert (E : trace (Sample.no_repository true false)
              = ([] ++ Exec ["git"; "config"; "--local"; "user.name"; "alice"]
                            false (Some (ExitError 1))
                    :: [Stdout (Rendered errorColor
                                         ("! Fatal Error !" ++ Strings.LF))
                               true;
                        LogFatal (ExitError 1)])%list)
    by reflexivity.
  split; [exact E|].
  exact (git_failure_halts _ _ _ _ E eq_refl eq_refl).
Defined.

(** ** The identity writes *)

(** Both identity writes carry [username]; [email] is never written. *)
Lemma pipeline_identity_values (w : World) (g : Globals) :
  Forall (fun e => forall key value,
              git_write e = Some (key, value) ->
              key = "user.name" \/ key = "user.email" ->
              value = username g)
         (snd (snd (pipeline w (g, [])))).
Proof.
  every_run g; repeat constructor; intros key value H K;
    vm_compute in H; try discriminate H;
    injection H as <- <-; try reflexivity;
    destruct K as [K|K]; discriminate K.
Qed.

Lemma identity_writes_carry_username (w : World) (g : Globals) (e : Event)
      (key value : string) :
  prompted w = Some g ->
  In e (trace w) ->
  git_write e = Some (key, value) ->
  key = "user.name" \/ key = "user.email" ->
  value = username g.
Proof.
  intros P I W K. unfold trace in I. rewrite (run_prompted w g P) in I.
  pose proof (pipeline_identity_values w g) as F.
  rewrite Forall_forall in F. exact (F e I key value W K).
Qed.

(** C1.  The code at the failing input: Alice gives the name [alice] and the
    address [alice@example.com]; the second git configuration command sets
    [user.email] to [alice], the username, and the address is written
    nowhere. *)
Theorem email_write_gets_username :
  option_map username (prompted (Sample.calm true false)) = Some "alice"
  /\ option_map email (prompted (Sample.calm true false))
     = Some "alice@example.com"
  /\ git_writes (trace (Sample.calm true false))
     = [("user.name", "alice"); ("user.email", "alice")]
  /\ nth_error (git_writes (trace (Sample.calm true false))) 1
     <> Some ("user.email", "alice@example.com").
Proof.
  repeat split; try reflexivity. vm_compute. discriminate.
Qed.

(** ** The summary *)

Lemma pipeline_read (w : World) (g : Globals) :
  read_report w (fst (pipeline w (g, []))) (snd (snd (pipeline w (g, []))))
  /\ count is_read (snd (snd (pipeline w (g, [])))) <= 1.
Proof.
  every_run g; (split; [|vm_compute; repeat constructor]);
    vm_compute; try reflexivity;
    (split; [reflexivity|]); (split; [symmetry; assumption|]);
    split; reflexivity.
Qed.

(** Whatever key path the user chose, the file the summary reads is Mason's;
    what is printed after it is the content that was read; and when it cannot
    be read nothing more is printed and the process ends with status 0. *)
Lemma summary_read (w : World) (l1 l2 : list Event) (path : string)
      (res : string + error) :
  trace w = (l1 ++ ReadFile path res :: l2)%list ->
  path = masons_key ++ ".pub"
  /\ res = file w l1 path
  /\ l2 = match res with inl pub => summary_events pub | inr _ => [] end
  /\ exit_status w = 0%Z.
Proof.
  intro E. destruct (prompted w) as [g|] eqn:P.
  - destruct (pipeline_read w g) as [R C].
    unfold trace, exit_status in *. rewrite (run_prompted w g P) in *.
    unfold read_report in R. rewrite E in R, C.
    destruct (alone_before is_read _ _ _ C eq_refl) as [N _].
    destruct (until_find is_read l1 l2 (ReadFile path res) N eq_refl)
      as [U F].
    rewrite F, U in R. destruct R as (A & B & T & D).
    apply app_inv_head in T. injection T as T.
    rewrite D. repeat split; assumption.
  - destruct (run_not_prompted w P) as [N _]. rewrite E in N.
    apply forallb_middle in N. discriminate N.
Qed.

(** C2.  The code at the failing input: on a machine shared with Mason,
    Alice keeps the pre-filled path [/home/alice/.ssh/id_ed25519] and has a
    key generated there.  The one file the summary reads is
    [/home/mason/.ssh/id_ed25519.pub], and the key it prints is Mason's, while
    [/home/alice/.ssh/id_ed25519.pub] holds Alice's at that time. *)
Theorem summary_reads_masons_key :
  option_map sshPath (prompted (Sample.shared false false))
  = Some "/home/alice/.ssh/id_ed25519"
  /\ filter is_keygen (trace (Sample.shared false false))
     = [Exec ["ssh-keygen"; "-t"; "ed25519"; "-f";
              "/home/alice/.ssh/id_ed25519"; "-C"; "alice@example.com"]
             true None]
  /\ filter is_read (trace (Sample.shared false false))
     = [ReadFile "/home/mason/.ssh/id_ed25519.pub" (inl Sample.mason_pub)]
  /\ info_lines (trace (Sample.shared false false))
     = [Strings.LF ++ "Almost Done!"; Sample.mason_pub;
        "eval " ++ Strings.DQ ++ "$(ssh-agent -s)" ++ Strings.DQ]
  /\ file (Sample.shared false false)
          (until is_read (trace (Sample.shared false false)))
          "/home/alice/.ssh/id_ed25519.pub"
     = inl Sample.alice_pub
  /\ Sample.mason_pub <> Sample.alice_pub.
Proof.
  repeat split; try reflexivity. vm_compute. discriminate.
Qed.

(** C3.  The code at the failing input: on Alice's own machine there is no
    [/home/mason], so the key file of the summary cannot be read.  The error
    [os.ReadFile] returns is the last event of the run: no banner, nothing
    handed to [log.Fatal], and the process ends with status 0. *)
Theorem unreadable_key_exits_zero :
  trace (Sample.calm false false)
  = (until is_read (trace (Sample.calm false false))
     ++ [ReadFile "/home/mason/.ssh/id_ed25519.pub"
                  (inr (PathError "open" "/home/mason/.ssh/id_ed25519.pub"))])%list
  /\ logged (trace (Sample.calm false false)) = []
  /\ existsb (says ("! Fatal Error !" ++ Strings.LF))
             (trace (Sample.calm false false)) = false
  /\ run (Sample.calm false false)
     = (Done tt, snd (run (Sample.calm false false)))
  /\ exit_status (Sample.calm false false) = 0%Z.
Proof.
  repeat split; reflexivity.
Qed.

(** ** The lookup of the current user *)

(** When the lookup fails, line 82 dereferences nil: the process dies of a
    run-time panic before the form is shown. *)
Lemma failed_lookup_panics (w : World) (e : error) :
  user_Current w = inr e ->
  run w = (Stop (RuntimePanic
                   "invalid memory address or nil pointer dereference"),
           start).
Proof.
  intro H. rewrite run_unfold. unfold promptStep, promptForm, bind.
  rewrite H. reflexivity.
Qed.

(** C10.  The code at the failing input: the lookup of the current user
    fails.  The run is a nil-pointer panic with exit status 2; the error of
    the lookup is neither printed nor handed to [log.Fatal], and no question
    is asked. *)
Theorem failed_lookup_is_a_nil_dereference :
  user_Current Sample.nobody
  = inr (UnknownUserError
           "user: Current requires cgo or $USER set in environment")
  /\ run Sample.nobody
     = (Stop (RuntimePanic
                "invalid memory address or nil pointer dereference"),
        start)
  /\ trace Sample.nobody = []
  /\ exit_status Sample.nobody = 2%Z.
Proof.
  repeat split; reflexivity.
Qed.

(** ** Key generation *)

(** In every branch of the pipeline: the generator runs at most once, a
    signing write has a generator call before it, and the generator has run
    once [setupGit] is through and a key was asked for. *)
Lemma pipeline_keygen (w : World) (g : Globals) :
  count is_keygen (snd (snd (pipeline w (g, [])))) <= 1
  /\ all_splits
       (fun before e _ =>
          negb (is_signing_write e) || existsb is_keygen before)
       [] (snd (snd (pipeline w (g, [])))) = true
  /\ (identity_configured (snd (snd (pipeline w (g, [])))) = true ->
      ignoreSSH g = false \/ signing g = true ->
      count is_keygen (snd (snd (pipeline w (g, [])))) = 1)
  /\ (ignoreSSH g = true ->
      count is_ssh_add (snd (snd (pipeline w (g, [])))) = 0).
Proof.
  every_run g;
    (split; [vm_compute; repeat constructor|]);
    (split; [reflexivity|]);
    (split; [intros I [C|C]; try discriminate C;
             vm_compute in I; try discriminate I; reflexivity|]);
    intro C; try discriminate C; reflexivity.
Qed.

(** With [ignoreSSH] set, the SSH step of [main] does nothing at all. *)
Lemma sshStep_skipped (w : World) (s : State) :
  ignoreSSH (fst s) = true -> sshStep w s = (Done tt, s).
Proof.
  destruct s as [g tr]. simpl. intro H.
  unfold sshStep, bind, globals. simpl. rewrite H. reflexivity.
Qed.

(** *** The trace only grows *)

Lemma grows_ret {A} (a : A) : grows (ret a).
Proof. intros w s. exists []. simpl. rewrite app_nil_r. reflexivity. Qed.

Lemma grows_halt {A} (h : Halt) : grows (@halt A h).
Proof. intros w s. exists []. simpl. rewrite app_nil_r. reflexivity. Qed.

Lemma grows_globals : grows globals.
Proof. intros w s. exists []. simpl. rewrite app_nil_r. reflexivity. Qed.

Lemma grows_modify f : grows (modify f).
Proof. intros w s. exists []. simpl. rewrite app_nil_r. reflexivity. Qed.

Lemma grows_emit e : grows (emit e).
Proof. intros w s. exists [e]. reflexivity. Qed.

Lemma grows_exec_Run argv tty : grows (exec_Run argv tty).
Proof. intros w s. eexists. reflexivity. Qed.

Lemma grows_os_ReadFile path : grows (os_ReadFile path).
Proof. intros w s. eexists. reflexivity. Qed.

Lemma grows_bind {A B} (m : M A) (k : A -> M B) :
  grows m -> (forall a, grows (k a)) -> grows (bind m k).
Proof.
  intros Hm Hk w s. unfold bind.
  destruct (Hm w s) as [more1 H1].
  destruct (m w s) as [[a|h] s']; simpl in H1.
  - destruct (Hk a w s') as [more2 H2].
    exists (more1 ++ more2)%list. rewrite H2, H1, app_assoc. reflexivity.
  - exists more1. exact H1.
Qed.

Create HintDb grows.
#[export] Hint Resolve grows_ret grows_halt grows_globals grows_modify
  grows_emit grows_exec_Run grows_os_ReadFile : grows.

(** Climbing down a computation built from binds and case distinctions. *)
Ltac grows_tac :=
  repeat first
    [ solve [auto with grows]
    | match goal with
      | |- forall _, grows _ => intro
      | |- grows (bind _ _) => apply grows_bind
      | |- grows (match ?x with _ => _ end) => destruct x
      end ].

Lemma grows_success msg : grows (success msg).
Proof. unfold success, fmt_Print, fmt_Println. grows_tac. Qed.

Lemma grows_warning msg : grows (warning msg).
Proof. unfold warning, fmt_Println. grows_tac. Qed.

Lemma grows_panic {A} err : grows (@panic A err).
Proof. unfold panic, log_Fatal, fmt_Println. grows_tac. Qed.

#[export] Hint Resolve grows_success grows_warning grows_panic : grows.

Lemma grows_check err : grows (check err).
Proof. unfold check. grows_tac. Qed.

Lemma grows_generateSSH : grows generateSSH.
Proof. unfold generateSSH. grows_tac. Qed.

#[export] Hint Resolve grows_check grows_generateSSH : grows.

Lemma grows_setupGit : grows setupGit.
Proof. unfold setupGit. grows_tac. Qed.

Lemma grows_setupSSH : grows setupSSH.
Proof. unfold setupSSH. grows_tac. Qed.

Lemma grows_setupSigning : grows setupSigning.
Proof. unfold setupSigning. grows_tac. Qed.

Lemma grows_print_lines lines : grows (print_lines lines).
Proof.
  induction lines as [|line rest IH]; simpl; [auto with grows|].
  apply grows_bind; [unfold fmt_Println; auto with grows | intro; exact IH].
Qed.

#[export] Hint Resolve grows_setupGit grows_setupSSH grows_setupSigning
  grows_print_lines : grows.

Lemma grows_almostDone : grows almostDone.
Proof. unfold almostDone. grows_tac. Qed.

#[export] Hint Resolve grows_almostDone : grows.

Lemma grows_pipeline : grows pipeline.
Proof.
  unfold pipeline, gitStep, sshStep, signingStep, resetStep, finalStep.
  grows_tac.
Qed.

Lemma bind_globals {A} (k : Globals -> M A) (w : World) (s : State) :
  bind globals k w s = k (fst s) w s.
Proof. reflexivity. Qed.

(** A command followed by anything: the command is the next event. *)
Lemma starts_with_exec {A} argv tty (k : option error -> M A) w s :
  (forall r, grows (k r)) ->
  exists later,
    snd (snd (bind (exec_Run argv tty) k w s))
    = (snd s ++ Exec argv tty (command w (snd s) argv) :: later)%list.
Proof.
  intro Hk. unfold bind, exec_Run.
  destruct (Hk (command w (snd s) argv) w
               (fst s, (snd s ++ [Exec argv tty (command w (snd s) argv)])%list))
    as [more H].
  exists more. rewrite H. simpl. rewrite <- app_assoc. reflexivity.
Qed.

(** What a computation starts with, it still starts with when continued. *)
Lemma then_grows {A B} (m : M A) (k : A -> M B) w s x :
  (exists later, snd (snd (m w s)) = (snd s ++ x :: later)%list) ->
  (forall a, grows (k a)) ->
  exists later, snd (snd (bind m k w s)) = (snd s ++ x :: later)%list.
Proof.
  intros [later H] Hk. unfold bind.
  destruct (m w s) as [[a|h] s']; simpl in H.
  - destruct (Hk a w s') as [more E]. exists (later ++ more)%list.
    rewrite E, H, <- app_assoc. reflexivity.
  - exists later. exact H.
Qed.

(** With [ignoreSSH] set, the first thing [setupSigning] does is to call the
    generator. *)
Lemma setupSigning_generates (w : World) (s : State) :
  ignoreSSH (fst s) = true ->
  exists later,
    snd (snd (setupSigning w s))
    = (snd s
       ++ Exec (keygen_argv (fst s)) true
               (command w (snd s) (keygen_argv (fst s)))
       :: later)%list.
Proof.
  intro H. unfold setupSigning. rewrite bind_globals, H.
  apply then_grows; [|grows_tac].
  unfold generateSSH. rewrite bind_globals.
  apply starts_with_exec. grows_tac.
Qed.

(** C4, as the code has it.  In every run in which the form was answered
    and both identity writes succeeded: when skip-SSH is false the generator
    is called exactly once, and before any signing write; when signing is
    true and skip-SSH is true it is called exactly once, the agent is never
    addressed, the SSH step does nothing and the call is the first thing the
    signing step does. *)
Theorem keygen_exactly_once (w : World) (g : Globals) :
  prompted w = Some g ->
  identity_configured (trace w) = true ->
  (ignoreSSH g = false ->
   count is_keygen (trace w) = 1
   /\ forall l1 e l2,
       trace w = (l1 ++ e :: l2)%list ->
       is_signing_write e = true ->
       existsb is_keygen l1 = true)
  /\ (signing g = true -> ignoreSSH g = true ->
      count is_keygen (trace w) = 1
      /\ count is_ssh_add (trace w) = 0
      /\ (forall s, ignoreSSH (fst s) = true -> sshStep w s = (Done tt, s))
      /\ (forall s, ignoreSSH (fst s) = true ->
            exists later,
              snd (snd (setupSigning w s))
              = (snd s
                 ++ Exec (keygen_argv (fst s)) true
                         (command w (snd s) (keygen_argv (fst s)))
                 :: later)%list)).
Proof.
  intros P I. unfold trace in *. rewrite (run_prompted w g P) in *.
  destruct (pipeline_keygen w g) as (_ & B & C & D). split.
  - intro S. split; [apply C; auto|].
    intros l1 e l2 E W.
    pose proof (all_splits_spec _ _ B l1 e l2 E) as H. cbv beta in H.
    rewrite W in H. exact H.
  - intros G S. split; [apply C; auto|]. split; [apply D, S|].
    split; [apply sshStep_skipped | apply setupSigning_generates].
Qed.

Lemma keygen_exactly_once_witness :
  (prompted (Sample.calm false true) = Some (Sample.chosen Global false true)
   /\ identity_configured (trace (Sample.calm false true)) = true
   /\ prompted (Sample.calm true true) = Some (Sample.chosen Global true true)
   /\ identity_configured (trace (Sample.calm true true)) = true)
  /\ count is_keygen (trace (Sample.calm false true)) = 1
  /\ count is_keygen (trace (Sample.calm true true)) = 1
  /\ count is_ssh_add (trace (Sample.calm true true)) = 0.
Proof.
  split; [repeat split; reflexivity|].
  destruct (keygen_exactly_once (Sample.calm false true)
                                (Sample.chosen Global false true)
                                eq_refl eq_refl) as [A _].
  destruct (keygen_exactly_once (Sample.calm true true)
                                (Sample.chosen Global true true)
                                eq_refl eq_refl) as [_ B].
  destruct (A eq_refl) as [A1 _].
  destruct (B eq_refl eq_refl) as (B1 & B2 & _).
  split; [exact A1|]. split; [exact B1 | exact B2].
Defined.

(** C4, as the claim has it, fails: Alice asks for a key (skip-SSH is false)
    and for signing, but git refuses the first identity write; the run ends
    there and the generator is never called. *)
Lemma keygen_not_reached :
  prompted (Sample.no_repository false true)
  = Some (Sample.chosen Local false true)
  /\ ignoreSSH (Sample.chosen Local false true) = false
  /\ count is_keygen (trace (Sample.no_repository false true)) = 0
  /\ count is_keygen (trace (Sample.no_repository false true)) <> 1.
Proof.
  repeat split; try reflexivity. vm_compute. discriminate.
Qed.

(** ** Neither key nor signing *)

(** The one trace of a run without key and without signing in which both
    identity writes succeed. *)
Lemma pipeline_quiet (w : World) (g : Globals) :
  ignoreSSH g = true -> signing g = false ->
  identity_configured (snd (snd (pipeline w (g, [])))) = true ->
  snd (snd (pipeline w (g, [])))
  = (Exec ["git"; "config"; gitContext g; "user.name"; username g] false None
     :: success_events "Successfully set git username"
     ++ Exec ["git"; "config"; gitContext g; "user.email"; username g]
             false None
     :: success_events "Successfully set git email"
     ++ success_events "Finished!")%list
  /\ fst (pipeline w (g, [])) = Done tt.
Proof.
  destruct g as [ctx u em skip path sign]. simpl. intros -> ->.
  split_world; intro I; try (vm_compute in I; discriminate I);
    split; reflexivity.
Qed.

(** C6, as the code has it.  When skip-SSH is true, signing is false and
    both identity writes succeed, the run issues exactly two git
    configuration writes, for [user.name] and then [user.email], starts no
    other command, reads no file, ends its output with the completion
    message and exits with status 0. *)
Theorem quiet_run (w : World) (g : Globals) :
  prompted w = Some g ->
  ignoreSSH g = true ->
  signing g = false ->
  identity_configured (trace w) = true ->
  map fst (git_writes (trace w)) = ["user.name"; "user.email"]
  /\ count is_git_config (trace w) = 2
  /\ forallb (fun e => is_output e || is_git_config e) (trace w) = true
  /\ existsb is_read (trace w) = false
  /\ (exists before,
         trace w = (before ++ success_events "Finished!")%list)
  /\ exit_status w = 0%Z.
Proof.
  intros P S G I. unfold trace, exit_status in *.
  rewrite (run_prompted w g P) in *.
  destruct (pipeline_quiet w g S G I) as [T R]. rewrite T, R.
  repeat split; try reflexivity.
  eexists (_ :: _ :: _ :: _ :: _ :: [_]). reflexivity.
Qed.

Lemma quiet_run_witness :
  (prompted (Sample.calm true false) = Some (Sample.chosen Global true false)
   /\ ignoreSSH (Sample.chosen Global true false) = true
   /\ signing (Sample.chosen Global true false) = false
   /\ identity_configured (trace (Sample.calm true false)) = true)
  /\ map fst (git_writes (trace (Sample.calm true false)))
     = ["user.name"; "user.email"]
  /\ existsb is_read (trace (Sample.calm true false)) = false
  /\ exit_status (Sample.calm true false) = 0%Z.
Proof.
  split; [repeat split; reflexivity|].
  destruct (quiet_run (Sample.calm true false)
                      (Sample.chosen Global true false)
                      eq_refl eq_refl eq_refl eq_refl)
    as (A & _ & _ & B & _ & C).
  split; [exact A|]. split; [exact B | exact C].
Defined.

(** C6, as the claim has it, fails: with skip-SSH true and signing false,
    git refuses the first identity write; one git configuration command was
    issued, not two, no completion message is printed and the status is 1. *)
Lemma two_writes_cut_short :
  prompted (Sample.no_repository true false)
  = Some (Sample.chosen Local true false)
  /\ ignoreSSH (Sample.chosen Local true false) = true
  /\ signing (Sample.chosen Local true false) = false
  /\ map fst (git_writes (trace (Sample.no_repository true false)))
     = ["user.name"]
  /\ count is_git_config (trace (Sample.no_repository true false)) <> 2
  /\ existsb (says "Finished!") (trace (Sample.no_repository true false))
     = false
  /\ exit_status (Sample.no_repository true false) = 1%Z.
Proof.
  repeat split; try reflexivity. vm_compute. discriminate.
Qed.

(** ** The agent *)

(** [setupSSH] returns what [generateSSH] returned: the answer of [ssh-add]
    never reaches the caller. *)
Lemma setupSSH_result (w : World) (s : State) :
  fst (setupSSH w s) = fst (generateSSH w s).
Proof.
  unfold setupSSH, generateSSH. rewrite !bind_globals.
  unfold bind, exec_Run, success, warning, fmt_Print, fmt_Println, emit,
    ret, globals. simpl.
  destruct (command w (snd s) _); simpl; [reflexivity|].
  destruct (command w _ _); reflexivity.
Qed.

(** After a successful generation, a failing [ssh-add] costs one warning
    line and [setupSSH] returns nil. *)
Lemma setupSSH_tolerates_agent (w : World) (s s1 : State) (err : error) :
  generateSSH w s = (Done None, s1) ->
  command w (snd s1) ["ssh-add"; sshPath (fst s1)] = Some err ->
  setupSSH w s
  = (Done None,
     (fst s1,
      (snd s1 ++ [Exec ["ssh-add"; sshPath (fst s1)] false (Some err);
                  agent_warning (sshPath (fst s1))])%list)).
Proof.
  intros G C. unfold setupSSH. unfold bind at 1. rewrite G.
  rewrite bind_globals. unfold bind, exec_Run. rewrite C.
  unfold warning, fmt_Println, emit, ret, agent_warning. simpl.
  rewrite <- app_assoc. reflexivity.
Qed.

(** In every branch of the pipeline a failed [ssh-add] is followed by a
    warning line, and then either by a failing git command or by the file
    access of the summary and status 0. *)
Lemma pipeline_agent_failure (w : World) (g : Globals) :
  all_splits
    (fun _ e later =>
       negb (is_ssh_add e && failed e)
       || (match later with x :: _ => is_warning x | [] => false end
           && (existsb (fun e' => is_git_config e' && failed e') later
               || (existsb is_read later
                   && Z.eqb (status_of (fst (pipeline w (g, [])))) 0))))
    [] (snd (snd (pipeline w (g, [])))) = true.
Proof.
  every_run g; reflexivity.
Qed.

(** An event that passes a test sits somewhere in the list. *)
Lemma existsb_split (q : Event -> bool) (l : list Event) :
  existsb q l = true ->
  exists before x after, l = (before ++ x :: after)%list /\ q x = true.
Proof.
  intro H. apply existsb_exists in H as (x & I & Q).
  apply in_split in I as (before & after & ->).
  exists before, x, after. split; [reflexivity | exact Q].
Qed.

(** C7, as the code has it.  When registering the key with the agent fails,
    a warning line is printed and [setupSSH] returns what the generation
    returned (success); unless a later git configuration command fails, the
    run goes on to the final summary: the key file is read, and once it has
    been read what follows is the summary with its content. *)
Theorem agent_failure_is_a_warning (w : World) (l1 l2 : list Event)
        (e : Event) :
  trace w = (l1 ++ e :: l2)%list ->
  is_ssh_add e = true ->
  failed e = true ->
  (exists x later, l2 = x :: later /\ is_warning x = true)
  /\ (forall s, fst (setupSSH w s) = fst (generateSSH w s))
  /\ (forall s s1 err,
         generateSSH w s = (Done None, s1) ->
         command w (snd s1) ["ssh-add"; sshPath (fst s1)] = Some err ->
         fst (setupSSH w s) = Done None)
  /\ (existsb (fun e' => is_git_config e' && failed e') l2 = false ->
      exists before path res after,
        l2 = (before ++ ReadFile path res :: after)%list
        /\ forall pub,
            res = inl pub ->
            after = map (fun line => Stdout line true) (summary_lines pub)).
Proof.
  intros E A F. destruct (prompted w) as [g|] eqn:P.
  - pose proof (pipeline_agent_failure w g) as H.
    pose proof E as E'.
    unfold trace in E'. rewrite (run_prompted w g P) in E'.
    pose proof (all_splits_spec _ _ H l1 e l2 E') as Q. cbv beta in Q.
    rewrite A, F in Q. simpl in Q.
    apply andb_true_iff in Q as [Q1 Q2].
    split; [|split; [|split]].
    + destruct l2 as [|x later]; [discriminate|]. eauto.
    + apply setupSSH_result.
    + intros s s1 err G C.
      rewrite (setupSSH_tolerates_agent w s s1 err G C). reflexivity.
    + intro N. rewrite N in Q2. simpl in Q2.
      apply andb_true_iff in Q2 as [R _].
      apply existsb_split in R as (before & x & after & -> & X).
      destruct x as [| | |path res]; try discriminate X.
      exists before, path, res, after. split; [reflexivity|].
      intros pub ->.
      assert (T : trace w
                  = ((l1 ++ e :: before)
                     ++ ReadFile path (inl pub) :: after)%list).
      { rewrite E, <- app_assoc. reflexivity. }
      destruct (summary_read w _ _ _ _ T) as (_ & _ & L & _). exact L.
  - destruct (run_not_prompted w P) as [N _]. rewrite E in N.
    apply forallb_middle in N. destruct e; simpl in *; discriminate.
Qed.

Lemma agent_failure_is_a_warning_witness :
  (trace Sample.mason_without_agent
   = (until is_ssh_add (trace Sample.mason_without_agent)
      ++ Exec ["ssh-add"; "/home/mason/.ssh/id_ed25519"] false
              (Some (ExitError 1))
      :: skipn 10 (trace Sample.mason_without_agent))%list
   /\ existsb (fun e' => is_git_config e' && failed e')
              (skipn 10 (trace Sample.mason_without_agent)) = false)
  /\ (exists before path res after,
         skipn 10 (trace Sample.mason_without_agent)
         = (before ++ ReadFile path res :: after)%list
         /\ forall pub,
             res = inl pub ->
             after = map (fun line => Stdout line true) (summary_lines pub))
  /\ skipn 10 (trace Sample.mason_without_agent)
     = (agent_warning "/home/mason/.ssh/id_ed25519"
        :: ReadFile "/home/mason/.ssh/id_ed25519.pub"
                    (inl Sample.masons_own_pub)
        :: summary_events Sample.masons_own_pub)%list.
Proof.
  assert (E : trace Sample.mason_without_agent
              = (until is_ssh_add (trace Sample.mason_without_agent)
                 ++ Exec ["ssh-add"; "/home/mason/.ssh/id_ed25519"] false
                         (Some (ExitError 1))
                 :: skipn 10 (trace Sample.mason_without_agent))%list)
    by reflexivity.
  assert (N : existsb (fun e' => is_git_config e' && failed e')
                      (skipn 10 (trace Sample.mason_without_agent))
              = false) by reflexivity.
  split; [split; [exact E | exact N]|].
  destruct (agent_failure_is_a_warning _ _ _ _ E eq_refl eq_refl)
    as (_ & _ & _ & H).
  split; [exact (H N) | reflexivity].
Defined.

(** C7, as the claim has it, fails: the agent refuses the key, the warning
    is printed and the run goes on into the signing step, where git refuses
    the first write; the run ends there with status 1, the summary step is
    never entered and nothing of the summary is printed. *)
Lemma agent_failure_then_no_summary :
  existsb (fun e => is_ssh_add e && failed e)
          (trace Sample.no_agent_no_format) = true
  /\ existsb is_warning (trace Sample.no_agent_no_format) = true
  /\ existsb is_read (trace Sample.no_agent_no_format) = false
  /\ info_lines (trace Sample.no_agent_no_format) = []
  /\ existsb (says "Key:") (trace Sample.no_agent_no_format) = false
  /\ exit_status Sample.no_agent_no_format = 1%Z.
Proof.
  repeat split; reflexivity.
Qed.

(** ** The key path *)

(** The pre-filled key path is never empty. *)
Lemma default_key_path_not_empty (currentUser : User) :
  default_key_path currentUser <> "".
Proof.
  unfold default_key_path. destruct (HomeDir currentUser); discriminate.
Qed.

(** The key path of the variables is the text the user left in the field. *)
Lemma prompted_key_path (w : World) (g : Globals) :
  prompted w = Some g ->
  exists currentUser,
    user_Current w = inl currentUser
    /\ sshPath g = k_sshPath (keys w) (default_key_path currentUser).
Proof.
  intro P. destruct (prompted_inv w g P) as (u & U & _ & _ & _ & _ & _ & S & _).
  exists u. split; assumption.
Qed.

(** In every branch of the pipeline the generator and the signing-key write
    get the key path of the variables. *)
Lemma pipeline_key_path (w : World) (g : Globals) :
  Forall (fun e => forall path, key_path e = Some path -> path = sshPath g)
         (snd (snd (pipeline w (g, [])))).
Proof.
  every_run g; repeat constructor; intros p H;
    vm_compute in H; try discriminate H;
    injection H as <-; reflexivity.
Qed.

(** C9, as the code has it.  Whenever the generator or the signing-key
    write runs, the key path it is given is the [sshPath] of the variables,
    which is the text the user left in the key-path field.  The text that
    field is pre-filled with is never empty, and the path is non-empty
    provided the text the user submitted is. *)
Theorem key_path_is_the_submitted_one (w : World) (g : Globals)
        (currentUser : User) (e : Event) (path : string) :
  prompted w = Some g ->
  user_Current w = inl currentUser ->
  In e (trace w) ->
  key_path e = Some path ->
  path = sshPath g
  /\ path = k_sshPath (keys w) (default_key_path currentUser)
  /\ default_key_path currentUser <> ""
  /\ (k_sshPath (keys w) (default_key_path currentUser) <> "" -> path <> "").
Proof.
  intros P U I K. unfold trace in I. rewrite (run_prompted w g P) in I.
  pose proof (pipeline_key_path w g) as F. rewrite Forall_forall in F.
  rewrite (F e I path K).
  destruct (prompted_key_path w g P) as (u & U' & S).
  rewrite U in U'. injection U' as <-.
  split; [reflexivity|]. split; [exact S|].
  split; [apply default_key_path_not_empty|].
  rewrite S. trivial.
Qed.

Lemma key_path_is_the_submitted_one_witness :
  (prompted (Sample.calm false true) = Some (Sample.chosen Global false true)
   /\ user_Current (Sample.calm false true) = inl Sample.alice
   /\ In (Exec (keygen_argv (Sample.chosen Global false true)) true None)
         (trace (Sample.calm false true))
   /\ key_path (Exec (keygen_argv (Sample.chosen Global false true)) true None)
      = Some "/home/alice/.ssh/id_ed25519")
  /\ "/home/alice/.ssh/id_ed25519"
     = sshPath (Sample.chosen Global false true)
  /\ "/home/alice/.ssh/id_ed25519" <> "".
Proof.
  assert (I : In (Exec (keygen_argv (Sample.chosen Global false true))
                       true None)
                 (trace (Sample.calm false true)))
    by (apply nth_error_In with (n := 6); reflexivity).
  split; [split; [reflexivity|]; split; [reflexivity|]; split;
          [exact I | reflexivity]|].
  destruct (key_path_is_the_submitted_one
              (Sample.calm false true) (Sample.chosen Global false true)
              Sample.alice
              (Exec (keygen_argv (Sample.chosen Global false true))
                    true None)
              "/home/alice/.ssh/id_ed25519"
              eq_refl eq_refl I eq_refl) as (A & _ & _ & B).
  split; [exact A|]. apply B. discriminate.
Defined.

(** A user who keeps the pre-filled text submits a non-empty path. *)
Lemma kept_default_not_empty (w : World) (g : Globals) (currentUser : User) :
  prompted w = Some g ->
  user_Current w = inl currentUser ->
  k_sshPath (keys w) (default_key_path currentUser)
  = default_key_path currentUser ->
  sshPath g <> "".
Proof.
  intros P U K. destruct (prompted_key_path w g P) as (u & U' & S).
  rewrite U in U'. injection U' as <-. rewrite S, K.
  apply default_key_path_not_empty.
Qed.

(** C9, as the claim has it, fails: the key-path field has no validator;
    Alice empties it, and the generator and the signing-key write both run
    with the empty path. *)
Lemma empty_key_path_accepted :
  option_map sshPath (prompted (Sample.cleared false true)) = Some ""
  /\ filter is_keygen (trace (Sample.cleared false true))
     = [Exec ["ssh-keygen"; "-t"; "ed25519"; "-f"; ""; "-C";
              "alice@example.com"] true None]
  /\ filter (writes_key "user.signingkey") (trace (Sample.cleared false true))
     = [Exec ["git"; "config"; "--global"; "user.signingkey"; ""] false None]
  /\ map key_path (filter is_keygen (trace (Sample.cleared false true)))
     = [Some ""].
Proof.
  repeat split; reflexivity.
Qed.

(** * Further properties of the program *)

(** ** Every position of a trace, with propositions *)

Lemma every_split_from P before tr :
  every_split P before tr ->
  forall l1 e l2, tr = (l1 ++ e :: l2)%list -> P (before ++ l1)%list e l2.
Proof.
  revert before.
  induction tr as [|x rest IH]; intros before H l1 e l2 E.
  - destruct l1; discriminate.
  - destruct H as [Hx Hrest].
    destruct l1 as [|y l1]; simpl in E; injection E as -> ->.
    + rewrite app_nil_r. exact Hx.
    + specialize (IH _ Hrest l1 e l2 eq_refl).
      rewrite <- app_assoc in IH. exact IH.
Qed.

Lemma every_split_spec P tr :
  every_split P [] tr ->
  forall l1 e l2, tr = (l1 ++ e :: l2)%list -> P l1 e l2.
Proof.
  intros H l1 e l2 E. exact (every_split_from P [] tr H l1 e l2 E).
Qed.

(** Going through the positions of a concrete trace. *)
Ltac walk tac :=
  cbn [every_split app];
  repeat lazymatch goal with
         | |- True => exact I
         | |- _ /\ _ => split; [cbv beta; tac|]
         end.

(** ** The order of the commands *)

Lemma pipeline_plan (w : World) (g : Globals) :
  plan g
  = (commands (snd (snd (pipeline w (g, []))))
     ++ skipn (length (commands (snd (snd (pipeline w (g, []))))))
              (plan g))%list
  /\ (status_of (fst (pipeline w (g, []))) = 0%Z ->
      commands (snd (snd (pipeline w (g, [])))) = plan g).
Proof.
  every_run g;
    (split; [reflexivity
            | intro H; try reflexivity; vm_compute in H; discriminate H]).
Qed.

(** X1.  The command lines a run starts are, in order, an initial part of
    the plan: the two identity writes, then generator and agent unless the
    key was declined, then for signing the generator if it has not run and
    the three signing writes.  A run that ends with status 0 has started all
    of them. *)
Theorem commands_follow_plan (w : World) (g : Globals) :
  prompted w = Some g ->
  (exists rest, plan g = (commands (trace w) ++ rest)%list)
  /\ (exit_status w = 0%Z -> commands (trace w) = plan g).
Proof.
  intro P. unfold trace, exit_status. rewrite (run_prompted w g P).
  destruct (pipeline_plan w g) as [A B].
  split; [eexists; exact A | exact B].
Qed.

Lemma commands_follow_plan_witness :
  prompted (Sample.no_agent false true)
  = Some (Sample.chosen Global false true)
  /\ commands (trace (Sample.no_agent false true))
     = plan (Sample.chosen Global false true).
Proof.
  split; [reflexivity|].
  exact (proj2 (commands_follow_plan (Sample.no_agent false true)
                  (Sample.chosen Global false true) eq_refl) eq_refl).
Defined.

(** ** The scope and the terminal *)

Lemma pipeline_git_shape (w : World) (g : Globals) :
  Forall (fun e => is_git_config e = true ->
                   exists key value res,
                     e = Exec (git_argv g key value) false res)
         (snd (snd (pipeline w (g, [])))).
Proof.
  every_run g; repeat constructor; intro H;
    vm_compute in H; try discriminate H;
    do 3 eexists; reflexivity.
Qed.

(** X2.  Every git configuration command of a run is
    [git config <scope> <key> <value>] with the scope chosen in the form,
    which is [--global] or [--local], and runs without the terminal. *)
Theorem git_commands_use_the_chosen_scope (w : World) (g : Globals)
        (e : Event) :
  prompted w = Some g ->
  In e (trace w) ->
  is_git_config e = true ->
  (exists key value res, e = Exec (git_argv g key value) false res)
  /\ (gitContext g = "--global" \/ gitContext g = "--local").
Proof.
  intros P I G. split.
  - unfold trace in I. rewrite (run_prompted w g P) in I.
    pose proof (pipeline_git_shape w g) as F. rewrite Forall_forall in F.
    exact (F e I G).
  - destruct (prompted_inv w g P) as (_ & _ & _ & C & _). rewrite C.
    destruct (k_gitContext (keys w)); [left | right]; reflexivity.
Qed.

Lemma git_commands_use_the_chosen_scope_witness :
  (prompted (Sample.no_repository true false)
   = Some (Sample.chosen Local true false)
   /\ In (Exec ["git"; "config"; "--local"; "user.name"; "alice"] false
               (Some (ExitError 1)))
         (trace (Sample.no_repository true false))
   /\ is_git_config (Exec ["git"; "config"; "--local"; "user.name"; "alice"]
                          false (Some (ExitError 1))) = true)
  /\ (gitContext (Sample.chosen Local true false) = "--global"
      \/ gitContext (Sample.chosen Local true false) = "--local").
Proof.
  assert (I : In (Exec ["git"; "config"; "--local"; "user.name"; "alice"]
                       false (Some (ExitError 1)))
                 (trace (Sample.no_repository true false)))
    by (apply nth_error_In with (n := 0); reflexivity).
  split; [split; [reflexivity|]; split; [exact I | reflexivity]|].
  exact (proj2 (git_commands_use_the_chosen_scope
                  (Sample.no_repository true false)
                  (Sample.chosen Local true false)
                  (Exec ["git"; "config"; "--local"; "user.name"; "alice"]
                        false (Some (ExitError 1)))
                  eq_refl I eq_refl)).
Defined.

Lemma pipeline_terminal (w : World) (g : Globals) :
  Forall (fun e => forall argv tty res,
              e = Exec argv tty res -> tty = is_keygen e)
         (snd (snd (pipeline w (g, [])))).
Proof.
  every_run g; repeat constructor; intros argv tty res E;
    try discriminate E; injection E as _ <- _; reflexivity.
Qed.

(** X3.  The terminal is handed to the key generator and to no other child
    process: a command of a run has standard input, output and error
    attached exactly when it is [ssh-keygen]. *)
Theorem only_the_generator_gets_the_terminal (w : World)
        (argv : list string) (tty : bool) (res : option error) :
  In (Exec argv tty res) (trace w) ->
  tty = is_keygen (Exec argv tty res).
Proof.
  intro I. destruct (prompted w) as [g|] eqn:P.
  - unfold trace in I. rewrite (run_prompted w g P) in I.
    pose proof (pipeline_terminal w g) as F. rewrite Forall_forall in F.
    exact (F _ I argv tty res eq_refl).
  - destruct (run_not_prompted w P) as [N _].
    rewrite forallb_forall in N. specialize (N _ I). discriminate N.
Qed.

Lemma only_the_generator_gets_the_terminal_witness :
  In (Exec ["ssh-add"; "/home/alice/.ssh/id_ed25519"] false None)
     (trace (Sample.calm false false))
  /\ false = is_keygen (Exec ["ssh-add"; "/home/alice/.ssh/id_ed25519"]
                             false None).
Proof.
  assert (I : In (Exec ["ssh-add"; "/home/alice/.ssh/id_ed25519"] false None)
                 (trace (Sample.calm false false)))
    by (apply nth_error_In with (n := 9); reflexivity).
  split; [exact I|].
  exact (only_the_generator_gets_the_terminal _ _ _ _ I).
Defined.

Lemma pipeline_keygen_argv (w : World) (g : Globals) :
  Forall (fun e => is_keygen e = true ->
                   exists res, e = Exec (keygen_argv g) true res)
         (snd (snd (pipeline w (g, [])))).
Proof.
  every_run g; repeat constructor; intro H;
    vm_compute in H; try discriminate H; eexists; reflexivity.
Qed.

(** X4.  Every call of the key generator is
    [ssh-keygen -t ed25519 -f <path> -C <email>] with the key path and the
    email the form returned, and that email contains [@] and [.]. *)
Theorem generator_command_line (w : World) (g : Globals) (e : Event) :
  prompted w = Some g ->
  In e (trace w) ->
  is_keygen e = true ->
  (exists res,
      e = Exec ["ssh-keygen"; "-t"; "ed25519"; "-f"; sshPath g;
                "-C"; email g] true res)
  /\ In "@"%char (Strings.bytes (email g))
  /\ In "."%char (Strings.bytes (email g)).
Proof.
  intros P I K. split.
  - unfold trace in I. rewrite (run_prompted w g P) in I.
    pose proof (pipeline_keygen_argv w g) as F. rewrite Forall_forall in F.
    exact (F e I K).
  - exact (proj2 (prompted_valid w g P)).
Qed.

Lemma generator_command_line_witness :
  (prompted (Sample.calm true true) = Some (Sample.chosen Global true true)
   /\ In (Exec (keygen_argv (Sample.chosen Global true true)) true None)
         (trace (Sample.calm true true))
   /\ is_keygen (Exec (keygen_argv (Sample.chosen Global true true))
                      true None) = true)
  /\ In "@"%char (Strings.bytes (email (Sample.chosen Global true true))).
Proof.
  assert (I : In (Exec (keygen_argv (Sample.chosen Global true true))
                       true None)
                 (trace (Sample.calm true true)))
    by (apply nth_error_In with (n := 6); reflexivity).
  split; [split; [reflexivity|]; split; [exact I | reflexivity]|].
  exact (proj1 (proj2 (generator_command_line
                         (Sample.calm true true)
                         (Sample.chosen Global true true)
                         (Exec (keygen_argv (Sample.chosen Global true true))
                               true None)
                         eq_refl I eq_refl))).
Defined.

(** ** Failures *)

Lemma pipeline_keygen_failure (w : World) (g : Globals) :
  every_split
    (fun _ e later =>
       is_keygen e = true -> failed e = true ->
       later = fatal_events keygen_error)
    [] (snd (snd (pipeline w (g, []))))
  /\ (existsb (fun e => is_keygen e && failed e)
              (snd (snd (pipeline w (g, [])))) = true ->
      fst (pipeline w (g, [])) = Stop (OsExit 1)).
Proof.
  every_run g;
    (split;
     [walk ltac:(intros K F; vm_compute in K, F;
                 try discriminate K; try discriminate F; reflexivity)
     | intro H; try reflexivity; vm_compute in H; discriminate H]).
Qed.

(** X5.  A failing key generation ends the run: whatever error the
    generator came back with, the error handed to [log.Fatal] is the fixed
    [Failed while generating SSH key]; after the generator only the banner
    and that message follow, and the exit status is 1. *)
Theorem generator_failure_is_fatal (w : World) (l1 l2 : list Event)
        (e : Event) :
  trace w = (l1 ++ e :: l2)%list ->
  is_keygen e = true ->
  failed e = true ->
  l2 = fatal_events (errors_New "Failed while generating SSH key")
  /\ exit_status w = 1%Z.
Proof.
  intros E K F. destruct (prompted w) as [g|] eqn:P.
  - destruct (pipeline_keygen_failure w g) as [A B].
    unfold trace, exit_status in *. rewrite (run_prompted w g P) in *.
    split.
    + exact (every_split_spec _ _ A l1 e l2 E K F).
    + rewrite B; [reflexivity|]. rewrite E.
      apply existsb_middle. rewrite K, F. reflexivity.
  - destruct (run_not_prompted w P) as [N _]. rewrite E in N.
    apply forallb_middle in N. destruct e; simpl in *; discriminate.
Qed.

Lemma generator_failure_is_fatal_witness :
  trace (Sample.no_keygen true true)
  = (firstn 6 (trace (Sample.no_keygen true true))
     ++ Exec (keygen_argv (Sample.chosen Global true true)) true
             (Some (ExitError 1))
     :: skipn 7 (trace (Sample.no_keygen true true)))%list
  /\ skipn 7 (trace (Sample.no_keygen true true))
     = fatal_events (errors_New "Failed while generating SSH key")
  /\ exit_status (Sample.no_keygen true true) = 1%Z.
Proof.
  assert (E : trace (Sample.no_keygen true true)
              = (firstn 6 (trace (Sample.no_keygen true true))
                 ++ Exec (keygen_argv (Sample.chosen Global true true)) true
                         (Some (ExitError 1))
                 :: skipn 7 (trace (Sample.no_keygen true true)))%list)
    by reflexivity.
  split; [exact E|].
  exact (generator_failure_is_fatal _ _ _ _ E eq_refl eq_refl).
Defined.

Lemma pipeline_git_error (w : World) (g : Globals) :
  every_split
    (fun _ e later =>
       forall argv tty err,
         e = Exec argv tty (Some err) -> is_git_config e = true ->
         later = fatal_events err)
    [] (snd (snd (pipeline w (g, [])))).
Proof.
  every_run g;
    walk ltac:(intros argv tty err E G; try discriminate E;
               vm_compute in G; try discriminate G;
               injection E as _ _ <-; reflexivity).
Qed.

(** X6.  The error of a failing git configuration command is reported as it
    is: after the command only the banner and that very error, handed to
    [log.Fatal], follow; nothing else is printed or started. *)
Theorem git_error_is_logged_verbatim (w : World) (l1 l2 : list Event)
        (argv : list string) (tty : bool) (err : error) :
  trace w = (l1 ++ Exec argv tty (Some err) :: l2)%list ->
  is_git_config (Exec argv tty (Some err)) = true ->
  l2 = [Stdout (Rendered errorColor ("! Fatal Error !" ++ Strings.LF)) true;
        LogFatal err].
Proof.
  intros E G. destruct (prompted w) as [g|] eqn:P.
  - pose proof (pipeline_git_error w g) as A.
    unfold trace in E. rewrite (run_prompted w g P) in E.
    exact (every_split_spec _ _ A l1 _ l2 E argv tty err eq_refl G).
  - destruct (run_not_prompted w P) as [N _]. rewrite E in N.
    apply forallb_middle in N. discriminate N.
Qed.

Lemma git_error_is_logged_verbatim_witness :
  trace (Sample.read_only "user.signingkey" false true)
  = (firstn 13 (trace (Sample.read_only "user.signingkey" false true))
     ++ Exec ["git"; "config"; "--global"; "user.signingkey";
              "/home/alice/.ssh/id_ed25519"] false (Some (ExitError 128))
     :: skipn 14 (trace (Sample.read_only "user.signingkey" false true)))%list
  /\ skipn 14 (trace (Sample.read_only "user.signingkey" false true))
     = [Stdout (Rendered errorColor ("! Fatal Error !" ++ Strings.LF)) true;
        LogFatal (ExitError 128)].
Proof.
  assert (E : trace (Sample.read_only "user.signingkey" false true)
              = (firstn 13 (trace (Sample.read_only "user.signingkey"
                                                    false true))
                 ++ Exec ["git"; "config"; "--global"; "user.signingkey";
                          "/home/alice/.ssh/id_ed25519"] false
                         (Some (ExitError 128))
                 :: skipn 14 (trace (Sample.read_only "user.signingkey"
                                                      false true)))%list)
    by reflexivity.
  split; [exact E|].
  exact (git_error_is_logged_verbatim _ _ _ _ _ _ E eq_refl).
Defined.

Lemma pipeline_status (w : World) (g : Globals) :
  (status_of (fst (pipeline w (g, []))) = 0%Z
   \/ status_of (fst (pipeline w (g, []))) = 1%Z)
  /\ Z.eqb (status_of (fst (pipeline w (g, [])))) 0
     = forallb (fun e => negb (failed e) || is_ssh_add e)
               (snd (snd (pipeline w (g, [])))).
Proof.
  every_run g; (split; [(left; reflexivity) || (right; reflexivity)
                       | reflexivity]).
Qed.

(** X7.  The exit status of a run is 0, 1 or 2.  It is 2 exactly when the
    lookup of the current user fails, and 0 exactly when the form was
    answered and no command failed other than [ssh-add]. *)
Theorem exit_status_cases (w : World) :
  (exit_status w = 0%Z \/ exit_status w = 1%Z \/ exit_status w = 2%Z)
  /\ (exit_status w = 2%Z <-> exists err, user_Current w = inr err)
  /\ (exit_status w = 0%Z <->
      prompted w <> None
      /\ forallb (fun e => negb (failed e) || is_ssh_add e) (trace w) = true).
Proof.
  destruct (prompted w) as [g|] eqn:P.
  - destruct (pipeline_status w g) as [A B].
    destruct (prompted_inv w g P) as (u & U & _).
    unfold exit_status, trace. rewrite (run_prompted w g P).
    split; [tauto|]. split.
    + split.
      * intro H. destruct A as [A|A]; rewrite A in H; discriminate H.
      * intros [err H]. rewrite U in H. discriminate H.
    + rewrite <- B, Z.eqb_eq. split.
      * intro H. split; [discriminate | exact H].
      * intros [_ H]. exact H.
  - pose proof (promptStep_cases w) as C. rewrite P in C.
    unfold exit_status. rewrite run_unfold.
    destruct C as [(err & g & U & E)|(err & g & E)]; rewrite E; simpl.
    + split; [tauto|]. split.
      * split; [eauto | reflexivity].
      * split; [discriminate | intros [H _]; contradiction].
    + split; [tauto|]. split.
      * split; [discriminate|]. intros [x U].
        unfold promptStep, promptForm, bind in E.
        rewrite U in E. discriminate E.
      * split; [discriminate | intros [H _]; contradiction].
Qed.

(** ** What is reported *)

Lemma pipeline_fatal (w : World) (g : Globals) :
  (fst (pipeline w (g, [])) = Done tt
   /\ logged (snd (snd (pipeline w (g, [])))) = []
   /\ existsb is_banner (snd (snd (pipeline w (g, [])))) = false)
  \/ (fst (pipeline w (g, [])) = Stop (OsExit 1)
      /\ exists err,
          snd (snd (pipeline w (g, [])))
          = (removelast (removelast (snd (snd (pipeline w (g, [])))))
             ++ fatal_events err)%list
          /\ logged (removelast (removelast (snd (snd (pipeline w (g, []))))))
             = []).
Proof.
  every_run g;
    first [ left; repeat split; reflexivity
          | right; split; [reflexivity|]; eexists; split; reflexivity ].
Qed.

(** X8.  A run that ends with status 1 ends with the banner and one error
    handed to [log.Fatal], and nothing was handed to it before; a run that
    ends otherwise prints nothing in the error style and hands nothing to [log.Fatal]. *)
Theorem fatal_report (w : World) :
  (exit_status w = 1%Z ->
   exists err before,
     trace w = (before ++ fatal_events err)%list /\ logged before = [])
  /\ (exit_status w <> 1%Z ->
      logged (trace w) = []
      /\ existsb is_banner (trace w) = false).
Proof.
  destruct (prompted w) as [g|] eqn:P.
  - unfold exit_status, trace. rewrite (run_prompted w g P).
    destruct (pipeline_fatal w g) as [(R & L & B)|(R & err & T & L)];
      rewrite R; simpl.
    + split; [discriminate | intros _; split; assumption].
    + split; [|intro N; contradiction].
      intros _. exists err. eexists. split; [exact T | exact L].
  - pose proof (promptStep_cases w) as C. rewrite P in C.
    unfold exit_status, trace. rewrite run_unfold.
    destruct C as [(e & g & _ & E)|(err & g & E)]; rewrite E; simpl.
    + split; [discriminate | intros _; split; reflexivity].
    + split; [|intro N; contradiction].
      intros _. exists err, []. split; reflexivity.
Qed.

Lemma fatal_report_witness :
  exit_status Sample.cancelled = 1%Z
  /\ exists err before,
      trace Sample.cancelled = (before ++ fatal_events err)%list
      /\ logged before = [].
Proof.
  assert (S : exit_status Sample.cancelled = 1%Z) by reflexivity.
  split; [exact S|].
  exact (proj1 (fatal_report Sample.cancelled) S).
Defined.

Lemma pipeline_success_lines (w : World) (g : Globals) :
  every_split
    (fun _ e later =>
       is_exec e = true -> failed e = false -> is_ssh_add e = false ->
       exists msg rest, later = (success_events msg ++ rest)%list)
    [] (snd (snd (pipeline w (g, [])))).
Proof.
  every_run g;
    walk ltac:(intros X F A; vm_compute in X, F, A;
               try discriminate X; try discriminate F; try discriminate A;
               do 2 eexists; reflexivity).
Qed.

(** X9.  Every command that succeeds, the registration with the agent
    apart, is reported at once: the next two events are the check mark and a
    status line in the success style. *)
Theorem success_is_reported (w : World) (l1 l2 : list Event) (e : Event) :
  trace w = (l1 ++ e :: l2)%list ->
  is_exec e = true ->
  failed e = false ->
  is_ssh_add e = false ->
  exists msg rest,
    l2 = (Stdout (Rendered successColor "✓ ") false
          :: Stdout (Rendered successColor msg) true :: rest)%list.
Proof.
  intros E X F A. destruct (prompted w) as [g|] eqn:P.
  - pose proof (pipeline_success_lines w g) as H.
    unfold trace in E. rewrite (run_prompted w g P) in E.
    exact (every_split_spec _ _ H l1 e l2 E X F A).
  - destruct (run_not_prompted w P) as [N _]. rewrite E in N.
    apply forallb_middle in N. destruct e; simpl in *; discriminate.
Qed.

Lemma success_is_reported_witness :
  trace (Sample.calm true false)
  = ([] ++ Exec ["git"; "config"; "--global"; "user.name"; "alice"]
                false None
        :: skipn 1 (trace (Sample.calm true false)))%list
  /\ exists msg rest,
      skipn 1 (trace (Sample.calm true false))
      = (Stdout (Rendered successColor "✓ ") false
         :: Stdout (Rendered successColor msg) true :: rest)%list.
Proof.
  assert (E : trace (Sample.calm true false)
              = ([] ++ Exec ["git"; "config"; "--global"; "user.name";
                             "alice"] false None
                    :: skipn 1 (trace (Sample.calm true false)))%list)
    by reflexivity.
  split; [exact E|].
  exact (success_is_reported _ _ _ _ E eq_refl eq_refl eq_refl).
Defined.

(** ** Nothing before the answers *)

(** X10.  A run starts a command or reads a file only after the form has
    returned its answers, and those passed the validators: the username is
    not empty and the email contains [@] and [.]. *)
Theorem nothing_before_valid_answers (w : World) (e : Event) :
  In e (trace w) ->
  is_output e = false ->
  exists g,
    prompted w = Some g
    /\ username g <> ""
    /\ In "@"%char (Strings.bytes (email g))
    /\ In "."%char (Strings.bytes (email g)).
Proof.
  intros I O. destruct (prompted w) as [g|] eqn:P.
  - exists g. split; [reflexivity|]. exact (prompted_valid w g P).
  - destruct (run_not_prompted w P) as [N _].
    rewrite forallb_forall in N. rewrite (N e I) in O. discriminate O.
Qed.

Lemma nothing_before_valid_answers_witness :
  (In (Exec ["git"; "config"; "--local"; "user.name"; "alice"] false
            (Some (ExitError 1)))
      (trace (Sample.no_repository true false))
   /\ is_output (Exec ["git"; "config"; "--local"; "user.name"; "alice"]
                      false (Some (ExitError 1))) = false)
  /\ exists g,
      prompted (Sample.no_repository true false) = Some g
      /\ username g <> ""
      /\ In "@"%char (Strings.bytes (email g))
      /\ In "."%char (Strings.bytes (email g)).
Proof.
  assert (I : In (Exec ["git"; "config"; "--local"; "user.name"; "alice"]
                       false (Some (ExitError 1)))
                 (trace (Sample.no_repository true false)))
    by (apply nth_error_In with (n := 0); reflexivity).
  split; [split; [exact I | reflexivity]|].
  exact (nothing_before_valid_answers _ _ I eq_refl).
Defined.

(** ** The agent *)

Lemma pipeline_agent (w : World) (g : Globals) :
  every_split
    (fun before e _ =>
       is_ssh_add e = true ->
       ignoreSSH g = false
       /\ (exists res, e = Exec ["ssh-add"; sshPath g] false res)
       /\ last_command before = Some (Exec (keygen_argv g) true None))
    [] (snd (snd (pipeline w (g, []))))
  /\ count is_ssh_add (snd (snd (pipeline w (g, [])))) <= 1.
Proof.
  every_run g;
    (split;
     [walk ltac:(intro A; vm_compute in A;
                 first [ discriminate A
                       | split; [reflexivity|]; split;
                         [eexists; reflexivity | reflexivity] ])
     | vm_compute; repeat constructor]).
Qed.

(** X11.  The agent is addressed at most once in a run, only when a key was
    asked for, with the key path of the form, and the last command before it
    is the key generator, which succeeded. *)
Theorem agent_follows_generation (w : World) (g : Globals)
        (l1 l2 : list Event) (e : Event) :
  prompted w = Some g ->
  trace w = (l1 ++ e :: l2)%list ->
  is_ssh_add e = true ->
  ignoreSSH g = false
  /\ (exists res, e = Exec ["ssh-add"; sshPath g] false res)
  /\ last_command l1
     = Some (Exec ["ssh-keygen"; "-t"; "ed25519"; "-f"; sshPath g;
                   "-C"; email g] true None)
  /\ forallb (fun x => negb (is_ssh_add x)) l1 = true
  /\ forallb (fun x => negb (is_ssh_add x)) l2 = true.
Proof.
  intros P E A. unfold trace in E. rewrite (run_prompted w g P) in E.
  destruct (pipeline_agent w g) as [H C].
  destruct (every_split_spec _ _ H l1 e l2 E A) as (S & X & L).
  rewrite E in C. destruct (alone_before is_ssh_add l1 l2 e C A) as [B1 B2].
  repeat split; assumption.
Qed.

Lemma agent_follows_generation_witness :
  (prompted (Sample.no_agent false false)
   = Some (Sample.chosen Global false false)
   /\ trace (Sample.no_agent false false)
      = (firstn 9 (trace (Sample.no_agent false false))
         ++ Exec ["ssh-add"; "/home/alice/.ssh/id_ed25519"] false
                 (Some (ExitError 1))
         :: skipn 10 (trace (Sample.no_agent false false)))%list)
  /\ ignoreSSH (Sample.chosen Global false false) = false
  /\ last_command (firstn 9 (trace (Sample.no_agent false false)))
     = Some (Exec ["ssh-keygen"; "-t"; "ed25519"; "-f";
                   "/home/alice/.ssh/id_ed25519"; "-C";
                   "alice@example.com"] true None).
Proof.
  assert (E : trace (Sample.no_agent false false)
              = (firstn 9 (trace (Sample.no_agent false false))
                 ++ Exec ["ssh-add"; "/home/alice/.ssh/id_ed25519"] false
                         (Some (ExitError 1))
                 :: skipn 10 (trace (Sample.no_agent false false)))%list)
    by reflexivity.
  split; [split; [reflexivity | exact E]|].
  destruct (agent_follows_generation
              (Sample.no_agent false false)
              (Sample.chosen Global false false) _ _ _ eq_refl E eq_refl)
    as (A & _ & B & _).
  split; [exact A | exact B].
Defined.

(** ** How a run ends *)

Lemma pipeline_ending (w : World) (g : Globals) :
  existsb is_read (snd (snd (pipeline w (g, []))))
  = Z.eqb (status_of (fst (pipeline w (g, [])))) 0
    && (negb (ignoreSSH g) || signing g)
  /\ existsb is_completion (snd (snd (pipeline w (g, []))))
     = Z.eqb (status_of (fst (pipeline w (g, [])))) 0
       && ignoreSSH g && negb (signing g)
  /\ fst (snd (pipeline w (g, [])))
     = if Z.eqb (status_of (fst (pipeline w (g, [])))) 0
       then set_sshPath masons_key g else g.
Proof.
  every_run g; repeat split; reflexivity.
Qed.

(** X12.  A run reads the key file exactly when it ends with status 0 and a
    key or signing was asked for, and prints the completion message
    exactly when it ends with status 0 and neither was asked for. *)
Theorem ending_of_a_run (w : World) (g : Globals) :
  prompted w = Some g ->
  existsb is_read (trace w)
  = Z.eqb (exit_status w) 0 && (negb (ignoreSSH g) || signing g)
  /\ existsb is_completion (trace w)
     = Z.eqb (exit_status w) 0 && ignoreSSH g && negb (signing g).
Proof.
  intro P. unfold trace, exit_status. rewrite (run_prompted w g P).
  destruct (pipeline_ending w g) as (A & B & _). split; assumption.
Qed.

Lemma ending_of_a_run_witness :
  prompted (Sample.calm true true) = Some (Sample.chosen Global true true)
  /\ existsb is_read (trace (Sample.calm true true)) = true
  /\ existsb is_completion (trace (Sample.calm true true)) = false.
Proof.
  split; [reflexivity|].
  exact (ending_of_a_run (Sample.calm true true)
                         (Sample.chosen Global true true) eq_refl).
Defined.

(** X13.  Through a run the variables stay as the form returned them; only
    [sshPath] is overwritten, with [/home/mason/.ssh/id_ed25519], and that
    exactly in the runs that end with status 0. *)
Theorem answers_are_kept (w : World) (g : Globals) :
  prompted w = Some g ->
  fst (snd (run w))
  = if Z.eqb (exit_status w) 0
    then set_sshPath "/home/mason/.ssh/id_ed25519" g
    else g.
Proof.
  intro P. unfold exit_status. rewrite (run_prompted w g P).
  exact (proj2 (proj2 (pipeline_ending w g))).
Qed.

Lemma answers_are_kept_witness :
  prompted (Sample.no_keygen false true)
  = Some (Sample.chosen Global false true)
  /\ fst (snd (run (Sample.no_keygen false true)))
     = Sample.chosen Global false true.
Proof.
  split; [reflexivity|].
  exact (answers_are_kept (Sample.no_keygen false true)
                          (Sample.chosen Global false true) eq_refl).
Defined.

(** X14.  When the key file can be read, what follows is the summary and
    nothing else: nine lines, the seventh being the content of the file as
    the file system returned it at that moment, and the run ends with
    status 0. *)
Theorem summary_prints_the_file (w : World) (l1 l2 : list Event)
        (path pub : string) :
  trace w = (l1 ++ ReadFile path (inl pub) :: l2)%list ->
  file w l1 path = inl pub
  /\ l2 = map (fun line => Stdout line true) (summary_lines pub)
  /\ length l2 = 9
  /\ nth_error l2 6 = Some (Stdout (Rendered infoColor pub) true)
  /\ exit_status w = 0%Z.
Proof.
  intro E. destruct (summary_read w l1 l2 path (inl pub) E)
    as (_ & F & L & S).
  rewrite L. repeat split; auto.
Qed.

Lemma summary_prints_the_file_witness :
  trace (Sample.shared false false)
  = (firstn 10 (trace (Sample.shared false false))
     ++ ReadFile "/home/mason/.ssh/id_ed25519.pub" (inl Sample.mason_pub)
     :: skipn 11 (trace (Sample.shared false false)))%list
  /\ nth_error (skipn 11 (trace (Sample.shared false false))) 6
     = Some (Stdout (Rendered infoColor Sample.mason_pub) true)
  /\ exit_status (Sample.shared false false) = 0%Z.
Proof.
  assert (E : trace (Sample.shared false false)
              = (firstn 10 (trace (Sample.shared false false))
                 ++ ReadFile "/home/mason/.ssh/id_ed25519.pub"
                             (inl Sample.mason_pub)
                 :: skipn 11 (trace (Sample.shared false false)))%list)
    by reflexivity.
  split; [exact E|].
  destruct (summary_prints_the_file _ _ _ _ _ E) as (_ & _ & _ & A & B).
  split; [exact A | exact B].
Defined.

(** ** What was declined *)

Lemma pipeline_declined (w : World) (g : Globals) :
  (signing g = false ->
   forallb (fun e => negb (is_signing_write e))
           (snd (snd (pipeline w (g, [])))) = true)
  /\ (ignoreSSH g = true -> signing g = false ->
      forallb (fun e => is_output e || writes_key "user.name" e
                        || writes_key "user.email" e)
              (snd (snd (pipeline w (g, [])))) = true).
Proof.
  every_run g; split; intros; try discriminate; reflexivity.
Qed.

(** X15.  What the user declined is not done: without signing no signing
    write is issued; without key and without signing the run starts nothing
    but the two identity writes and reads no file. *)
Theorem declined_steps_do_not_run (w : World) (g : Globals) :
  prompted w = Some g ->
  (signing g = false ->
   forallb (fun e => negb (is_signing_write e)) (trace w) = true)
  /\ (ignoreSSH g = true -> signing g = false ->
      forallb (fun e => is_output e || writes_key "user.name" e
                        || writes_key "user.email" e) (trace w) = true).
Proof.
  intro P. unfold trace. rewrite (run_prompted w g P).
  exact (pipeline_declined w g).
Qed.

Lemma declined_steps_do_not_run_witness :
  (prompted (Sample.calm false false)
   = Some (Sample.chosen Global false false)
   /\ signing (Sample.chosen Global false false) = false)
  /\ forallb (fun e => negb (is_signing_write e))
             (trace (Sample.calm false false)) = true.
Proof.
  split; [split; reflexivity|].
  exact (proj1 (declined_steps_do_not_run
                  (Sample.calm false false)
                  (Sample.chosen Global false false) eq_refl) eq_refl).
Defined.

(** ** A form that fails *)

(** [promptForm] prints nothing and starts nothing. *)
Lemma promptForm_silent (w : World) :
  snd (snd (promptForm w start)) = [].
Proof.
  unfold promptForm, bind, form_Run, modify, halt.
  destruct (user_Current w); simpl; [|reflexivity].
  destruct (k_error (keys w)); [reflexivity|].
  destruct (huh_Input validateUsername _);
    [destruct (huh_Input validateEmail _)|]; reflexivity.
Qed.

(** X16.  When [promptForm] returns an error, the run consists of the
    banner and that error handed to [log.Fatal]: no command is started and
    the exit status is 1. *)
Theorem prompt_error_is_fatal (w : World) (err : error) (s : State) :
  promptForm w start = (Done (Some err), s) ->
  trace w
  = [Stdout (Rendered errorColor ("! Fatal Error !" ++ Strings.LF)) true;
     LogFatal err]
  /\ exit_status w = 1%Z.
Proof.
  intro H. pose proof (promptForm_silent w) as N. rewrite H in N.
  unfold trace, exit_status. rewrite run_unfold.
  unfold promptStep, bind. rewrite H.
  destruct s as [g tr]. simpl in N. subst tr. split; reflexivity.
Qed.

Lemma prompt_error_is_fatal_witness :
  promptForm Sample.cancelled start
  = (Done (Some ErrUserAborted),
     (set_sshPath "/home/alice/.ssh/id_ed25519" zero, []))
  /\ trace Sample.cancelled
     = [Stdout (Rendered errorColor ("! Fatal Error !" ++ Strings.LF)) true;
        LogFatal ErrUserAborted]
  /\ exit_status Sample.cancelled = 1%Z.
Proof.
  assert (H : promptForm Sample.cancelled start
              = (Done (Some ErrUserAborted),
                 (set_sshPath "/home/alice/.ssh/id_ed25519" zero, [])))
    by reflexivity.
  split; [exact H|].
  exact (prompt_error_is_fatal _ _ _ H).
Defined.
